(** * sargoth-mcp: the Mermaid MCP server (mcp_server.py)

    A shallow embedding of [MermaidMCPServer]: the tool registry, the
    dispatcher [handle_call_tool], the three handlers that call the rendering
    service over HTTP, and the local heuristics on diagram source text.

    Conventions of the model.
    - A Python [str] is the list of its code points ([N]); [len] is the length
      of that list.  String literals of the source are written as Rocq
      literals and decoded from UTF-8 by [lit].
    - [bytes] is a list of [Byte.byte].
    - A value that can sit in the argument mapping or in a JSON body is a
      JSON scalar: [None], a bool, an int or a str.
    - A handler is a computation in the monad [M]: it may call the rendering
      service (every outbound POST is appended to a log), return, or raise
      an exception.  Only exceptions derived from Python's [Exception] are
      modelled; those are the ones [except Exception] intercepts. *)

From Stdlib Require Import ZArith NArith List String Ascii Lia DecimalString.
From stdpp Require Import base gmap list.
Import ListNotations.

Local Open Scope N_scope.

(* ------------------------------------------------------------------ *)
(** ** Python text *)

Definition str := list N.

(** UTF-8 decoding of a literal of this file (1 to 4 byte sequences). *)
Fixpoint utf8 (s : string) : str :=
  match s with
  | EmptyString => []
  | String a0 s1 =>
    let b0 := N_of_ascii a0 in
    if b0 <? 128 then b0 :: utf8 s1 else
    match s1 with
    | EmptyString => [b0]
    | String a1 s2 =>
      let b1 := N_of_ascii a1 - 128 in
      if b0 <? 224 then ((b0 - 192) * 64 + b1) :: utf8 s2 else
      match s2 with
      | EmptyString => [b0]
      | String a2 s3 =>
        let b2 := N_of_ascii a2 - 128 in
        if b0 <? 240 then ((b0 - 224) * 4096 + b1 * 64 + b2) :: utf8 s3 else
        match s3 with
        | EmptyString => [b0]
        | String a3 s4 =>
          let b3 := N_of_ascii a3 - 128 in
          ((b0 - 240) * 262144 + b1 * 4096 + b2 * 64 + b3) :: utf8 s4
        end
      end
    end
  end.

Definition lit (s : string) : str := utf8 s.
Arguments lit s%_string.

(** The two characters a Rocq literal cannot hold conveniently. *)
Definition nl : str := [10].
Definition dq : str := [34].

(** [a == b] on str. *)
Definition str_eqb (a b : str) : bool := bool_decide (a = b).

(** [s.startswith(prefix)]. *)
Fixpoint startswith (s prefix : str) {struct prefix} : bool :=
  match prefix with
  | [] => true
  | p :: prefix' =>
    match s with
    | [] => false
    | c :: s' => (c =? p) && startswith s' prefix'
    end
  end.

(** [s.startswith((p1, p2, ...))]. *)
Definition startswith_any (s : str) (prefixes : list str) : bool :=
  existsb (startswith s) prefixes.

(** [sub in s]. *)
Fixpoint contains (sub s : str) : bool :=
  startswith s sub ||
  match s with
  | [] => false
  | _ :: s' => contains sub s'
  end.

(** [sep.join(parts)]. *)
Fixpoint join (sep : str) (parts : list str) : str :=
  match parts with
  | [] => []
  | [p] => p
  | p :: parts' => p ++ sep ++ join sep parts'
  end.

(** Py_UNICODE_ISSPACE: the characters [str.strip()] removes. *)
Definition is_space (c : N) : bool :=
  ((9 <=? c) && (c <=? 13)) || ((28 <=? c) && (c <=? 32)) ||
  (c =? 133) || (c =? 160) || (c =? 5760) ||
  ((8192 <=? c) && (c <=? 8202)) || (c =? 8232) || (c =? 8233) ||
  (c =? 8239) || (c =? 8287) || (c =? 12288).

(** Py_UNICODE_ISLINEBREAK: the line boundaries of [str.splitlines()]. *)
Definition is_linebreak (c : N) : bool :=
  ((10 <=? c) && (c <=? 13)) || ((28 <=? c) && (c <=? 30)) ||
  (c =? 133) || (c =? 8232) || (c =? 8233).

Fixpoint lstrip_with (p : N -> bool) (s : str) : str :=
  match s with
  | [] => []
  | c :: s' => if p c then lstrip_with p s' else s
  end.

Definition rstrip_with (p : N -> bool) (s : str) : str :=
  rev (lstrip_with p (rev s)).

(** [s.strip()]. *)
Definition strip (s : str) : str := rstrip_with is_space (lstrip_with is_space s).

(** [s.rstrip(chars)]. *)
Definition rstrip (s chars : str) : str :=
  rstrip_with (fun c => existsb (N.eqb c) chars) s.

(** [s.splitlines()]: [cur] is the line being read.  A carriage return
    followed by a line feed is one boundary; a boundary at the very end
    opens no further line. *)
Fixpoint splitlines_from (cur s : str) : list str :=
  match s with
  | [] => match cur with [] => [] | _ => [cur] end
  | c :: s' =>
    if is_linebreak c then
      match s' with
      | c' :: s'' =>
        if (c =? 13) && (c' =? 10) then cur :: splitlines_from [] s''
        else cur :: splitlines_from [] s'
      | [] => [cur]
      end
    else splitlines_from (cur ++ [c]) s'
  end.

Definition splitlines (s : str) : list str := splitlines_from [] s.

Definition ascii_lower (c : N) : N :=
  if (65 <=? c) && (c <=? 90) then c + 32 else c.

(** [str(n)] for an int. *)
Definition str_of_Z (n : Z) : str := lit (NilZero.string_of_int (Z.to_int n)).
Definition str_of_nat (n : nat) : str := str_of_Z (Z.of_nat n).

(** [f"{n / 1024:.1f}"] for a length [n] (below 2^53 the quotient is an exact
    double, and the formatting rounds its exact value half to even). *)
Definition format_kb (n : nat) : str :=
  let t := 10 * N.of_nat n in
  let q := t / 1024 in
  let r := t mod 1024 in
  let q' := if (512 <? r) || ((r =? 512) && N.odd q) then q + 1 else q in
  str_of_Z (Z.of_N (q' / 10)) ++ lit "." ++ str_of_Z (Z.of_N (q' mod 10)).

(* ------------------------------------------------------------------ *)
(** ** Values, exceptions *)

Inductive value :=
| VNone
| VBool (b : bool)
| VInt (n : Z)
| VStr (s : str).

#[global] Instance value_eq_dec : EqDecision value.
Proof. solve_decision. Defined.

(** [str(v)], as an f-string field formats it. *)
Definition str_of_value (v : value) : str :=
  match v with
  | VNone => lit "None"
  | VBool true => lit "True"
  | VBool false => lit "False"
  | VInt n => str_of_Z n
  | VStr s => s
  end.

(** [bool(v)]. *)
Definition truthy (v : value) : bool :=
  match v with
  | VNone => false
  | VBool b => b
  | VInt n => negb (n =? 0)%Z
  | VStr s => match s with [] => false | _ => true end
  end.

(** [type(v).__name__]. *)
Definition type_name (v : value) : str :=
  match v with
  | VNone => lit "NoneType"
  | VBool _ => lit "bool"
  | VInt _ => lit "int"
  | VStr _ => lit "str"
  end.

(** The exceptions a handler can raise, all derived from [Exception]. *)
Inductive exn :=
| KeyError (key : str)                 (* d[key] on an absent key *)
| ValueError (msg : str)
| AttributeError (ty attr : str)       (* a method the object does not have *)
| JSONDecodeError (msg : str)          (* response.json() on a body that is not JSON *)
| TransportError (msg : str).          (* httpx: connection refused, timeout, DNS failure *)

(** [str(e)].  The key of a KeyError is shown by its repr; the only key the
    handlers look up with [d[key]] is 'code'. *)
Definition str_of_exn (e : exn) : str :=
  match e with
  | KeyError key => lit "'" ++ key ++ lit "'"
  | ValueError msg => msg
  | AttributeError ty attr =>
    lit "'" ++ ty ++ lit "' object has no attribute '" ++ attr ++ lit "'"
  | JSONDecodeError msg => msg
  | TransportError msg => msg
  end.

Inductive result (A : Type) :=
| Returned (a : A)
| Raised (e : exn).
Arguments Returned {A} a.
Arguments Raised {A} e.

(* ------------------------------------------------------------------ *)
(** ** Dictionaries and JSON *)

(** [d.get(key, default)]. *)
Definition dict_get {V} (d : gmap str V) (key : str) (dflt : V) : V :=
  default dflt (d !! key).

(** [d[key]]. *)
Definition getitem (d : gmap str value) (key : str) : result value :=
  match d !! key with
  | Some v => Returned v
  | None => Raised (KeyError key)
  end.

(** What [response.json()] can return: an object with scalar fields, an
    array (its elements play no role below) or a scalar. *)
Inductive json_value :=
| JDict (d : gmap str value)
| JList
| JScalar (v : value).

(** [j.get(key, default)]: only a dict has the method. *)
Definition json_get (j : json_value) (key : str) (dflt : value) : result value :=
  match j with
  | JDict d => Returned (dict_get d key dflt)
  | JList => Raised (AttributeError (lit "list") (lit "get"))
  | JScalar v => Raised (AttributeError (type_name v) (lit "get"))
  end.

(** The first str method called on a value: it is there when the value is
    a str, and raises AttributeError otherwise. *)
Definition str_method (v : value) (attr : str) : result str :=
  match v with
  | VStr s => Returned s
  | _ => Raised (AttributeError (type_name v) attr)
  end.

(* ------------------------------------------------------------------ *)
(** ** The collaborators: httpx and mcp.types *)

Module httpx.

(** [client.post(url, json=..., timeout=...)]; the timeout in seconds. *)
Record Request := {
  url : str;
  json : gmap str value;
  timeout : N
}.

(** A response: [headers] is keyed by the lower-case header name,
    [parsed] is what [response.json()] does on this body. *)
Record Response := {
  status_code : Z;
  headers : gmap str str;
  text : str;
  content : list Byte.byte;
  parsed : result json_value
}.

(** The service answers, or the transport fails with a message. *)
Inductive Outcome :=
| Responded (r : Response)
| Failed (msg : str).

End httpx.

Module types.

Record TextContent := {
  type : str;
  text : str
}.

(** The JSON-Schema fragment the registry uses. *)
Inductive Schema :=
| SObject (properties : list Property) (required : list str)
| SString (description : str) (enum : option (list str)) (dflt : option str)
| SInteger (description : str) (minimum maximum dflt : Z)
with Property :=
| property (key : str) (schema : Schema).

Record Tool := {
  name : str;
  description : str;
  inputSchema : Schema
}.

End types.

(* ------------------------------------------------------------------ *)
(** ** Handlers as computations *)

(** The rendering service as the handlers see it. *)
Definition service := httpx.Request -> httpx.Outcome.

(** A computation: given the service and the log of the POSTs made so far,
    it returns or raises, and leaves the extended log. *)
Definition M (A : Type) : Type :=
  service -> list httpx.Request -> result A * list httpx.Request.

Definition ret {A} (a : A) : M A := fun _ log => (Returned a, log).

Definition raise {A} (e : exn) : M A := fun _ log => (Raised e, log).

Definition bind {A B} (m : M A) (k : A -> M B) : M B :=
  fun srv log =>
    match m srv log with
    | (Returned a, log') => k a srv log'
    | (Raised e, log') => (Raised e, log')
    end.

Definition lift {A} (r : result A) : M A := fun _ log => (r, log).

Notation "x <- m ;; k" := (bind m (fun x => k))
  (at level 100, m at next level, right associativity).

(** [async with httpx.AsyncClient() as client: await client.post(...)]. *)
Definition post (url : str) (json : gmap str value) (timeout : N)
  : M httpx.Response :=
  fun srv log =>
    let req := httpx.Build_Request url json timeout in
    match srv req with
    | httpx.Responded r => (Returned r, log ++ [req])
    | httpx.Failed msg => (Raised (TransportError msg), log ++ [req])
    end.

(** [try: body except Exception as e: handler(e)]. *)
Definition try_except {A} (body : M A) (handler : exn -> M A) : M A :=
  fun srv log =>
    match body srv log with
    | (Returned a, log') => (Returned a, log')
    | (Raised e, log') => handler e srv log'
    end.

Definition TextContent (text : str) : types.TextContent :=
  types.Build_TextContent (lit "text") text.

(* ------------------------------------------------------------------ *)
(** ** base64

    [base64.b64encode] of the Python standard library: RFC 4648, standard
    alphabet, padded with '='.  [b64decode] is the strict decoder of the
    same RFC, the inverse a reader of the payload applies. *)

Definition byte_of_N (n : N) : Byte.byte := default Byte.x00 (Byte.of_N n).

(** The character of a 6-bit group: A-Z, a-z, 0-9, '+', '/'. *)
Definition b64_char (n : N) : N :=
  if n <? 26 then 65 + n
  else if n <? 52 then 97 + (n - 26)
  else if n <? 62 then 48 + (n - 52)
  else if n =? 62 then 43
  else 47.

Definition b64_pad : N := 61.

Fixpoint b64encode (data : list Byte.byte) : list Byte.byte :=
  match data with
  | [] => []
  | [x] =>
    let a := Byte.to_N x in
    map byte_of_N [b64_char (a / 4); b64_char (a mod 4 * 16); b64_pad; b64_pad]
  | [x; y] =>
    let a := Byte.to_N x in
    let b := Byte.to_N y in
    map byte_of_N [b64_char (a / 4); b64_char (a mod 4 * 16 + b / 16);
                   b64_char (b mod 16 * 4); b64_pad]
  | x :: y :: z :: rest =>
    let a := Byte.to_N x in
    let b := Byte.to_N y in
    let c := Byte.to_N z in
    map byte_of_N [b64_char (a / 4); b64_char (a mod 4 * 16 + b / 16);
                   b64_char (b mod 16 * 4 + c / 64); b64_char (c mod 64)]
    ++ b64encode rest
  end.

(** [b.decode()] on ASCII bytes: the characters with the same codes. *)
Definition bytes_decode (b : list Byte.byte) : str := map Byte.to_N b.

(** The 6-bit group of a character of the alphabet. *)
Definition b64_index (c : N) : option N :=
  if (65 <=? c) && (c <=? 90) then Some (c - 65)
  else if (97 <=? c) && (c <=? 122) then Some (c - 97 + 26)
  else if (48 <=? c) && (c <=? 57) then Some (c - 48 + 52)
  else if c =? 43 then Some 62
  else if c =? 47 then Some 63
  else None.

Fixpoint b64decode (s : str) : option (list Byte.byte) :=
  match s with
  | [] => Some []
  | c0 :: c1 :: c2 :: c3 :: rest =>
    s0 ← b64_index c0;
    s1 ← b64_index c1;
    x ← Byte.of_N (s0 * 4 + s1 / 16);
    if c2 =? b64_pad then
      match rest with
      | [] => if c3 =? b64_pad then Some [x] else None
      | _ => None
      end
    else
      s2 ← b64_index c2;
      y ← Byte.of_N (s1 mod 16 * 16 + s2 / 4);
      if c3 =? b64_pad then
        match rest with
        | [] => Some [x; y]
        | _ => None
        end
      else
        s3 ← b64_index c3;
        z ← Byte.of_N (s2 mod 4 * 64 + s3);
        tail ← b64decode rest;
        Some (x :: y :: z :: tail)
  | _ => None
  end.

(* ------------------------------------------------------------------ *)
(** ** The server *)

Record MermaidMCPServer := {
  api_base_url : str
}.

Definition __init__ (api_base_url : str) : MermaidMCPServer :=
  {| api_base_url := rstrip api_base_url (lit "/") |}.

(** The tool registry. *)
Definition THEMES : list str :=
  [lit "modern"; lit "classic"; lit "dark"; lit "minimal"].

Definition handle_list_tools : list types.Tool :=
  [ types.Build_Tool
      (lit "render_mermaid_svg")
      (lit "Generate an SVG diagram from Mermaid code")
      (types.SObject
         [ types.property (lit "code")
             (types.SString (lit "The Mermaid diagram code to render") None None);
           types.property (lit "theme")
             (types.SString (lit "Theme for the diagram") (Some THEMES)
                (Some (lit "modern"))) ]
         [lit "code"]);
    types.Build_Tool
      (lit "render_mermaid_png")
      (lit "Generate a PNG image from Mermaid code")
      (types.SObject
         [ types.property (lit "code")
             (types.SString (lit "The Mermaid diagram code to render") None None);
           types.property (lit "theme")
             (types.SString (lit "Theme for the diagram") (Some THEMES)
                (Some (lit "modern")));
           types.property (lit "scale")
             (types.SInteger (lit "PNG scale factor (1-4)") 1 4 2) ]
         [lit "code"]);
    types.Build_Tool
      (lit "validate_mermaid")
      (lit "Validate Mermaid diagram syntax by attempting to render it")
      (types.SObject
         [ types.property (lit "code")
             (types.SString (lit "The Mermaid diagram code to validate") None None) ]
         [lit "code"]);
    types.Build_Tool
      (lit "suggest_mermaid_improvements")
      (lit "Analyze Mermaid code and suggest improvements or fixes")
      (types.SObject
         [ types.property (lit "code")
             (types.SString (lit "The Mermaid diagram code to analyze") None None);
           types.property (lit "diagram_type")
             (types.SString (lit "Expected diagram type")
                (Some [lit "flowchart"; lit "sequence"; lit "class"; lit "state";
                       lit "gantt"; lit "pie"; lit "journey"; lit "git"])
                None) ]
         [lit "code"]) ].

Section Server.

(** [str.lower()] maps each character on its own.  On ASCII it is the
    map A-Z to a-z; beyond ASCII the case tables of the Python runtime
    decide, from the whole text, the position and the character (one
    character can become several, and a capital sigma depends on its
    neighbours).  Those tables are no part of this repository. *)
Variable unicode_lower : str -> nat -> N -> str.

Fixpoint lower_from (whole : str) (i : nat) (rest : str) : str :=
  match rest with
  | [] => []
  | c :: rest' =>
    (if c <? 128 then [ascii_lower c] else unicode_lower whole i c)
    ++ lower_from whole (S i) rest'
  end.

(** [s.lower()]. *)
Definition lower (s : str) : str := lower_from s 0 s.

(** *** Diagram heuristics *)

Definition _detect_diagram_type (code : str) : str :=
  let code_lower := strip (lower code) in
  if startswith code_lower (lit "sequencediagram") then lit "sequence"
  else if startswith code_lower (lit "classdiagram") then lit "class"
  else if startswith code_lower (lit "statediagram") then lit "state"
  else if startswith code_lower (lit "gantt") then lit "gantt"
  else if startswith code_lower (lit "pie") then lit "pie"
  else if startswith code_lower (lit "journey") then lit "journey"
  else if startswith code_lower (lit "gitgraph") then lit "git"
  else if startswith code_lower (lit "graph")
          || startswith code_lower (lit "flowchart") then lit "flowchart"
  else lit "unknown".

Definition _estimate_complexity (code : str) : str :=
  let lines := length (splitlines code) in
  let chars := length code in
  if (20 <? lines)%nat || (1000 <? chars)%nat then lit "High"
  else if (10 <? lines)%nat || (500 <? chars)%nat then lit "Medium"
  else lit "Low".

(** The suggestion texts of [_suggest_improvements]. *)
Definition EMPTY_CODE : str :=
  lit "- Code is empty. Add a diagram type declaration.".
Definition MISSING_DECLARATION : str :=
  lit "- Missing diagram type declaration. Start with 'graph TD', 'sequenceDiagram', etc.".
Definition GRAPH_DIRECTION : str :=
  lit "- Consider specifying graph direction: TD (top-down), LR (left-right), etc.".
Definition ADD_STYLING : str :=
  lit "- Consider adding styling with classes or style definitions for better visual appeal".
Definition HIGH_COMPLEXITY : str :=
  lit "- High complexity detected. Consider breaking into multiple smaller diagrams".
Definition USE_ARROWS : str :=
  lit "- Use arrows (-->) to connect flowchart nodes".
Definition NODE_SHAPES : str :=
  lit "- Use different node shapes: [] for rectangles, {} for diamonds, () for circles".
Definition DEFINE_PARTICIPANTS : str :=
  lit "- Define participants explicitly for cleaner sequence diagrams".
Definition ADD_NOTES : str :=
  lit "- Consider adding notes to clarify important interactions".
Definition LOOKS_GOOD : str :=
  lit "- Code looks good! Consider experimenting with themes for different visual styles".

Definition DECLARATIONS : list str :=
  [lit "graph"; lit "flowchart"; lit "sequenceDiagram"; lit "classDiagram";
   lit "stateDiagram"; lit "gantt"; lit "pie"; lit "journey"; lit "gitGraph"].

(** [suggestions] of [_suggest_improvements] when the final check
    [if not suggestions] is reached: the checks append in this order. *)
Definition collected_suggestions (code : str) (diagram_type : value) : list str :=
  let suggestions : list str := [] in
  let lines := splitlines (strip code) in
  let suggestions :=
    match lines with
    | [] => suggestions ++ [EMPTY_CODE]
    | _ =>
      if negb (existsb (fun line => startswith_any (strip line) DECLARATIONS) lines)
      then suggestions ++ [MISSING_DECLARATION]
      else suggestions
    end in
  let suggestions :=
    if contains (lit "graph") code && negb (contains (lit "TD") code)
       && negb (contains (lit "LR") code) && negb (contains (lit "TB") code)
       && negb (contains (lit "RL") code)
    then suggestions ++ [GRAPH_DIRECTION]
    else suggestions in
  let suggestions :=
    if (5 <? length lines)%nat && negb (contains (lit "class") code)
       && negb (contains (lit "style") code)
    then suggestions ++ [ADD_STYLING]
    else suggestions in
  let complexity := _estimate_complexity code in
  let suggestions :=
    if str_eqb complexity (lit "High")
    then suggestions ++ [HIGH_COMPLEXITY]
    else suggestions in
  if bool_decide (diagram_type = VStr (lit "flowchart")) then
    let suggestions :=
      if negb (contains (lit "-->") code) && negb (contains (lit "---") code)
      then suggestions ++ [USE_ARROWS]
      else suggestions in
    if negb (contains (lit "{") code) && negb (contains (lit "[") code)
       && negb (contains (lit "(") code)
    then suggestions ++ [NODE_SHAPES]
    else suggestions
  else if bool_decide (diagram_type = VStr (lit "sequence")) then
    let suggestions :=
      if negb (contains (lit "participant") code)
      then suggestions ++ [DEFINE_PARTICIPANTS]
      else suggestions in
    if negb (contains (lit "note") code)
    then suggestions ++ [ADD_NOTES]
    else suggestions
  else suggestions.

(** [suggestions] as the handler joins it into its report. *)
Definition final_suggestions (code : str) (diagram_type : value) : list str :=
  let suggestions := collected_suggestions code diagram_type in
  match suggestions with
  | [] => suggestions ++ [LOOKS_GOOD]
  | _ => suggestions
  end.

(** *** Handlers *)

Variable self : MermaidMCPServer.

(** The expression of the three render handlers on a response that is
    not a 200:
    [response.json() if response.headers.get("content-type", "")
       .startswith("application/json") else {"error": response.text}]. *)
Definition error_data (response : httpx.Response) : result json_value :=
  if startswith (dict_get (httpx.headers response) (lit "content-type") [])
                (lit "application/json")
  then httpx.parsed response
  else Returned (JDict {[ lit "error" := VStr (httpx.text response) ]}).

Definition _render_svg (arguments : gmap str value)
  : M (list types.TextContent) :=
  code <- lift (getitem arguments (lit "code")) ;;
  let theme := dict_get arguments (lit "theme") (VStr (lit "modern")) in
  response <- post (api_base_url self ++ lit "/api/render/svg")
                   {[ lit "code" := code; lit "theme" := theme ]} 30 ;;
  if (httpx.status_code response =? 200)%Z then
    let svg_content := httpx.text response in
    ret [ TextContent
            (lit "✅ SVG diagram generated successfully! ("
             ++ str_of_nat (length svg_content) ++ lit " characters)" ++ nl ++ nl
             ++ lit "Theme: " ++ str_of_value theme ++ nl
             ++ lit "The SVG can be saved to a file or embedded directly in HTML."
             ++ nl ++ nl
             ++ lit "SVG Content:" ++ nl ++ lit "```svg" ++ nl
             ++ svg_content ++ nl ++ lit "```") ]
  else
    error_data <- lift (error_data response) ;;
    error <- lift (json_get error_data (lit "error") (VStr (lit "Unknown error"))) ;;
    ret [ TextContent (lit "❌ Failed to render SVG: " ++ str_of_value error) ].

Definition _render_png (arguments : gmap str value)
  : M (list types.TextContent) :=
  code <- lift (getitem arguments (lit "code")) ;;
  let theme := dict_get arguments (lit "theme") (VStr (lit "modern")) in
  let scale := dict_get arguments (lit "scale") (VInt 2) in
  response <- post (api_base_url self ++ lit "/api/render/png")
                   {[ lit "code" := code; lit "theme" := theme;
                      lit "scale" := scale ]} 30 ;;
  if (httpx.status_code response =? 200)%Z then
    let png_data := httpx.content response in
    let png_size_kb := format_kb (length png_data) in
    let png_base64 := bytes_decode (b64encode png_data) in
    ret [ TextContent
            (lit "✅ PNG diagram generated successfully! ("
             ++ png_size_kb ++ lit " KB)" ++ nl ++ nl
             ++ lit "Theme: " ++ str_of_value theme ++ nl
             ++ lit "Scale: " ++ str_of_value scale ++ lit "x" ++ nl
             ++ lit "The PNG can be saved to a file or displayed in applications that support base64 images."
             ++ nl ++ nl
             ++ lit "To save this PNG, decode the base64 data below:" ++ nl ++ nl
             ++ lit "```base64" ++ nl ++ png_base64 ++ nl ++ lit "```" ++ nl ++ nl
             ++ lit "Or use this data URL in HTML:" ++ nl
             ++ lit "```html" ++ nl
             ++ lit "<img src=" ++ dq ++ lit "data:image/png;base64," ++ png_base64
             ++ dq ++ lit " alt=" ++ dq ++ lit "Mermaid Diagram" ++ dq ++ lit ">"
             ++ nl ++ lit "```") ]
  else
    error_data <- lift (error_data response) ;;
    error <- lift (json_get error_data (lit "error") (VStr (lit "Unknown error"))) ;;
    ret [ TextContent (lit "❌ Failed to render PNG: " ++ str_of_value error) ].

(** The four hints [_validate_mermaid] lists under an invalid diagram. *)
Definition COMMON_ISSUES : list str :=
  [lit "- Proper diagram type declaration (graph, sequenceDiagram, etc.)";
   lit "- Correct arrow syntax (-->, ->>)";
   lit "- Balanced brackets and quotes";
   lit "- Valid node and edge definitions"].

Definition _validate_mermaid (arguments : gmap str value)
  : M (list types.TextContent) :=
  code <- lift (getitem arguments (lit "code")) ;;
  response <- post (api_base_url self ++ lit "/api/render/svg")
                   {[ lit "code" := code; lit "theme" := VStr (lit "modern") ]} 15 ;;
  if (httpx.status_code response =? 200)%Z then
    (* code.lower() is the first use of code as text *)
    code <- lift (str_method code (lit "lower")) ;;
    let diagram_type := _detect_diagram_type code in
    ret [ TextContent
            (lit "✅ Mermaid syntax is valid!" ++ nl ++ nl
             ++ lit "Detected diagram type: " ++ diagram_type ++ nl
             ++ lit "The diagram can be rendered successfully." ++ nl ++ nl
             ++ lit "Code analysis:" ++ nl
             ++ lit "- Lines: " ++ str_of_nat (length (splitlines code)) ++ nl
             ++ lit "- Characters: " ++ str_of_nat (length code) ++ nl
             ++ lit "- Estimated complexity: " ++ _estimate_complexity code) ]
  else
    error_data <- lift (error_data response) ;;
    error <- lift (json_get error_data (lit "error") (VStr (lit "Unknown error"))) ;;
    ret [ TextContent
            (lit "❌ Mermaid syntax is invalid!" ++ nl ++ nl
             ++ lit "Error: " ++ str_of_value error ++ nl ++ nl
             ++ lit "Common issues to check:" ++ nl
             ++ lit "- Proper diagram type declaration (graph, sequenceDiagram, etc.)" ++ nl
             ++ lit "- Correct arrow syntax (-->, ->>)" ++ nl
             ++ lit "- Balanced brackets and quotes" ++ nl
             ++ lit "- Valid node and edge definitions") ].

Definition _suggest_improvements (arguments : gmap str value)
  : M (list types.TextContent) :=
  code <- lift (getitem arguments (lit "code")) ;;
  let diagram_type := dict_get arguments (lit "diagram_type") VNone in
  diagram_type <-
    (if negb (truthy diagram_type) then
       code <- lift (str_method code (lit "lower")) ;;
       ret (VStr (_detect_diagram_type code))
     else ret diagram_type) ;;
  (* code.strip() is the next use of code as text *)
  code <- lift (str_method code (lit "strip")) ;;
  let lines := splitlines (strip code) in
  let complexity := _estimate_complexity code in
  let suggestions := final_suggestions code diagram_type in
  ret [ TextContent
          (lit "📊 Mermaid Code Analysis" ++ nl ++ nl
           ++ lit "Diagram Type: " ++ str_of_value diagram_type ++ nl
           ++ lit "Complexity: " ++ complexity ++ nl
           ++ lit "Lines: " ++ str_of_nat (length lines) ++ nl ++ nl
           ++ lit "💡 Suggestions for improvement:" ++ nl
           ++ join nl suggestions ++ nl ++ nl
           ++ lit "🎨 Available themes: modern, classic, dark, minimal" ++ nl
           ++ lit "📐 Supported diagram types: flowchart, sequence, class, state, gantt, pie, journey, git") ].

(** *** The dispatcher *)

(** The body of the [try] of [handle_call_tool]. *)
Definition call_tool_body (name : str) (arguments : gmap str value)
  : M (list types.TextContent) :=
  if str_eqb name (lit "render_mermaid_svg") then _render_svg arguments
  else if str_eqb name (lit "render_mermaid_png") then _render_png arguments
  else if str_eqb name (lit "validate_mermaid") then _validate_mermaid arguments
  else if str_eqb name (lit "suggest_mermaid_improvements")
    then _suggest_improvements arguments
  else raise (ValueError (lit "Unknown tool: " ++ name)).

Definition handle_call_tool (name : str) (arguments : gmap str value)
  : M (list types.TextContent) :=
  try_except (call_tool_body name arguments)
    (fun e => ret [ TextContent (lit "Error: " ++ str_of_exn e) ]).

(* ------------------------------------------------------------------ *)
(** ** The failure message as the specification words it, and sample inputs *)

(** The specification's wording of the message of a response that is not
    a 200: parse the body as JSON and take its [error] field; when the body
    is not JSON or has no such field, the raw body text. *)
Definition spec_failure_message (response : httpx.Response) : str :=
  match httpx.parsed response with
  | Returned (JDict d) =>
    match d !! lit "error" with
    | Some v => str_of_value v
    | None => httpx.text response
    end
  | _ => httpx.text response
  end.

(** The requests of the three handlers that call the service. *)
Definition svg_request (code theme : value) (timeout : N) : httpx.Request :=
  {| httpx.url := api_base_url self ++ lit "/api/render/svg";
     httpx.json := {[ lit "code" := code; lit "theme" := theme ]};
     httpx.timeout := timeout |}.

Definition png_request (code theme scale : value) : httpx.Request :=
  {| httpx.url := api_base_url self ++ lit "/api/render/png";
     httpx.json := {[ lit "code" := code; lit "theme" := theme; lit "scale" := scale ]};
     httpx.timeout := 30 |}.

(** What the three render handlers compute on a response that is not a
    200, from [error_data] to the [error] they report. *)
Definition failure_message (response : httpx.Response) : result value :=
  match error_data response with
  | Returned data => json_get data (lit "error") (VStr (lit "Unknown error"))
  | Raised e => Raised e
  end.

(** The report of [_validate_mermaid] on a failure with message [m]. *)
Definition invalid_report (m : str) : str :=
  lit "❌ Mermaid syntax is invalid!" ++ nl ++ nl
  ++ lit "Error: " ++ m ++ nl ++ nl
  ++ lit "Common issues to check:" ++ nl
  ++ join nl COMMON_ISSUES.

(** A runtime whose case tables leave every character beyond ASCII as it is. *)
Definition ascii_runtime : str -> nat -> N -> str := fun _ _ c => [c].

Definition localhost : MermaidMCPServer := __init__ (lit "http://localhost:5000").

(** A service no connection reaches, and one that answers [r] to everything. *)
Definition unreachable : service :=
  fun _ => httpx.Failed (lit "All connection attempts failed").

Definition answering (r : httpx.Response) : service :=
  fun _ => httpx.Responded r.

Definition graph_td : str := lit "graph TD" ++ nl ++ lit "A-->B".

(** HTTP 500, JSON content type, body {"error":"parse error"}. *)
Definition parse_error_500 : httpx.Response :=
  {| httpx.status_code := 500;
     httpx.headers := {[ lit "content-type" := lit "application/json" ]};
     httpx.text := lit "{" ++ dq ++ lit "error" ++ dq ++ lit ":" ++ dq
                   ++ lit "parse error" ++ dq ++ lit "}";
     httpx.content := [];
     httpx.parsed := Returned (JDict {[ lit "error" := VStr (lit "parse error") ]}) |}.

(** HTTP 500, JSON content type, a JSON body with no error field:
    {"detail":"boom"}. *)
Definition detail_500 : httpx.Response :=
  {| httpx.status_code := 500;
     httpx.headers := {[ lit "content-type" := lit "application/json" ]};
     httpx.text := lit "{" ++ dq ++ lit "detail" ++ dq ++ lit ":" ++ dq
                   ++ lit "boom" ++ dq ++ lit "}";
     httpx.content := [];
     httpx.parsed := Returned (JDict {[ lit "detail" := VStr (lit "boom") ]}) |}.

(** HTTP 500, no content type, the JSON body {"error":"parse error"}. *)
Definition untyped_500 : httpx.Response :=
  {| httpx.status_code := 500;
     httpx.headers := ∅;
     httpx.text := lit "{" ++ dq ++ lit "error" ++ dq ++ lit ":" ++ dq
                   ++ lit "parse error" ++ dq ++ lit "}";
     httpx.content := [];
     httpx.parsed := Returned (JDict {[ lit "error" := VStr (lit "parse error") ]}) |}.

(** HTTP 200 from the PNG endpoint with the given bytes. *)
Definition png_200 (data : list Byte.byte) : httpx.Response :=
  {| httpx.status_code := 200;
     httpx.headers := {[ lit "content-type" := lit "image/png" ]};
     httpx.text := [];
     httpx.content := data;
     httpx.parsed := Raised (JSONDecodeError (lit "Expecting value: line 1 column 1 (char 0)")) |}.

(* ------------------------------------------------------------------ *)
(** ** Definitions for the further properties *)

(** The suggestions of [_suggest_improvements] in the order of its checks. *)
Definition ALL_SUGGESTIONS : list str :=
  [EMPTY_CODE; MISSING_DECLARATION; GRAPH_DIRECTION; ADD_STYLING;
   HIGH_COMPLEXITY; USE_ARROWS; NODE_SHAPES; DEFINE_PARTICIPANTS; ADD_NOTES].

(** The prefixes [_detect_diagram_type] tests, each with its result. *)
Definition PREFIX_TABLE : list (str * str) :=
  [(lit "sequencediagram", lit "sequence"); (lit "classdiagram", lit "class");
   (lit "statediagram", lit "state"); (lit "gantt", lit "gantt");
   (lit "pie", lit "pie"); (lit "journey", lit "journey");
   (lit "gitgraph", lit "git"); (lit "graph", lit "flowchart");
   (lit "flowchart", lit "flowchart")].


(** Reading the registry: a tool by name, the schema of one of its
    properties, the default a schema declares, and whether a value is
    within the enum or the bounds a schema declares. *)
Definition find_tool (name : str) : option types.Tool :=
  List.find (fun t => str_eqb (types.name t) name) handle_list_tools.

Definition property_schema (tool : types.Tool) (key : str) : option types.Schema :=
  match types.inputSchema tool with
  | types.SObject properties _ =>
    match List.find (fun p => match p with types.property k _ => str_eqb k key end)
                    properties with
    | Some (types.property _ schema) => Some schema
    | None => None
    end
  | _ => None
  end.

Definition declared_default (schema : types.Schema) : option value :=
  match schema with
  | types.SString _ _ (Some d) => Some (VStr d)
  | types.SInteger _ _ _ d => Some (VInt d)
  | _ => None
  end.

Definition within (schema : types.Schema) (v : value) : bool :=
  match schema, v with
  | types.SString _ None _, VStr _ => true
  | types.SString _ (Some enum) _, VStr s => existsb (str_eqb s) enum
  | types.SInteger _ minimum maximum _, VInt n => (minimum <=? n)%Z && (n <=? maximum)%Z
  | _, _ => false
  end.

(** The schema and the default the registry declares for a property of a
    tool. *)
Definition declared_schema (name key : str) : option types.Schema :=
  match find_tool name with
  | Some tool => property_schema tool key
  | None => None
  end.


(** test_server.py, [test_helper_methods]: the cases and the mark printed
    for each, a check mark when the result is the expected one. *)
Definition test_cases : list (str * str) :=
  [(lit "graph TD" ++ nl ++ lit "A --> B", lit "flowchart");
   (lit "sequenceDiagram" ++ nl ++ lit "A->>B: Hello", lit "sequence");
   (lit "classDiagram" ++ nl ++ lit "class Animal", lit "class");
   (lit "gantt" ++ nl ++ lit "title Project", lit "gantt");
   (lit "pie title Fruits" ++ nl ++ dq ++ lit "Apple" ++ dq ++ lit ": 50", lit "pie")].

(** [[f"A{i} --> B{i}" for i in range(n)]]. *)
Definition edge_lines (n : nat) : list str :=
  map (fun i => lit "A" ++ str_of_nat i ++ lit " --> B" ++ str_of_nat i) (seq 0 n).

Definition complexity_cases : list (str * str) :=
  [(lit "A --> B", lit "Low");
   (lit "graph TD" ++ nl ++ join nl (edge_lines 15), lit "High");
   (lit "graph TD" ++ nl ++ join nl (edge_lines 8), lit "Medium")].

Definition status (actual expected : str) : str :=
  if str_eqb actual expected then lit "✅" else lit "❌".

Definition detection_marks : list str :=
  map (fun case => status (_detect_diagram_type (fst case)) (snd case)) test_cases.

Definition complexity_marks : list str :=
  map (fun case => status (_estimate_complexity (fst case)) (snd case))
      complexity_cases.

(* ------------------------------------------------------------------ *)
(** ** Properties of the diagram heuristics *)

(** The nine results of [_detect_diagram_type]. *)
Definition DIAGRAM_TYPES : list str :=
  [lit "flowchart"; lit "sequence"; lit "class"; lit "state"; lit "gantt";
   lit "pie"; lit "journey"; lit "git"; lit "unknown"].

(** Two prefixes of one text: one is a prefix of the other. *)
Lemma startswith_comparable (s p q : str) :
  startswith s p = true -> startswith s q = true ->
  startswith p q = true \/ startswith q p = true.
Proof.
  revert p q. induction s as [|c s IH]; intros [|a p] [|b q]; simpl; auto.
  - discriminate.
  - intros Hp Hq.
    apply andb_prop in Hp as [Hca Hp]. apply andb_prop in Hq as [Hcb Hq].
    apply N.eqb_eq in Hca, Hcb. subst a b.
    rewrite N.eqb_refl. simpl. apply IH; assumption.
Qed.

Ltac two_prefixes :=
  match goal with
  | H1 : startswith ?s ?p = true, H2 : startswith ?s ?q = true |- _ =>
    exfalso; destruct (startswith_comparable s p q H1 H2) as [X|X];
    vm_compute in X; discriminate X
  end.

Ltac split_prefix_tests s :=
  repeat match goal with
         | |- context [startswith s ?p] =>
           destruct (startswith s p) eqn:?; try two_prefixes
         end.

(** C4. [_detect_diagram_type] is a function of the text alone, defined on
    every text.  With [s] the lower-cased then trimmed source, its result
    is one of the nine diagram types, and each type is returned exactly
    for its prefix: sequencediagram, classdiagram, statediagram, gantt,
    pie, journey, gitgraph, graph or flowchart, and unknown when no
    prefix matches.  The two examples of the specification evaluate to
    sequence and unknown. *)
Theorem detect_diagram_type_table (code : str) :
  let s := strip (lower code) in
  let t := _detect_diagram_type code in
  In t DIAGRAM_TYPES
  /\ (t = lit "sequence" <-> startswith s (lit "sequencediagram") = true)
  /\ (t = lit "class" <-> startswith s (lit "classdiagram") = true)
  /\ (t = lit "state" <-> startswith s (lit "statediagram") = true)
  /\ (t = lit "gantt" <-> startswith s (lit "gantt") = true)
  /\ (t = lit "pie" <-> startswith s (lit "pie") = true)
  /\ (t = lit "journey" <-> startswith s (lit "journey") = true)
  /\ (t = lit "git" <-> startswith s (lit "gitgraph") = true)
  /\ (t = lit "flowchart" <->
      startswith s (lit "graph") = true \/ startswith s (lit "flowchart") = true)
  /\ (t = lit "unknown" <->
      startswith_any s [lit "sequencediagram"; lit "classdiagram";
                        lit "statediagram"; lit "gantt"; lit "pie";
                        lit "journey"; lit "gitgraph"; lit "graph";
                        lit "flowchart"] = false)
  /\ _detect_diagram_type (lit "sequenceDiagram" ++ nl ++ lit "A->>B: hi")
     = lit "sequence"
  /\ _detect_diagram_type (lit "foobar") = lit "unknown".
Proof.
  unfold _detect_diagram_type, startswith_any, existsb.
  generalize (strip (lower code)) as s. intros s. cbv zeta.
  split_prefix_tests s; vm_compute;
    repeat split; intros; try discriminate; try reflexivity;
    intuition discriminate.
Qed.

Ltac absurd_literal :=
  match goal with
  | H : lit _ = lit _ |- _ => vm_compute in H; discriminate H
  end.

(** C5. With L the number of lines [splitlines] finds and C the number of
    characters, [_estimate_complexity] is High exactly when L > 20 or
    C > 1000, Medium exactly when it is not High and L > 10 or C > 500,
    and Low exactly when L <= 10 and C <= 500.  A text of exactly 20 lines
    and at most 1000 characters is not High. *)
Theorem estimate_complexity_thresholds (code : str) :
  let L := length (splitlines code) in
  let C := length code in
  let c := _estimate_complexity code in
  (c = lit "High" <-> (20 < L \/ 1000 < C)%nat)
  /\ (c = lit "Medium" <->
      (~ (20 < L \/ 1000 < C) /\ (10 < L \/ 500 < C))%nat)
  /\ (c = lit "Low" <-> (L <= 10 /\ C <= 500)%nat)
  /\ (L = 20%nat -> (C <= 1000)%nat -> c <> lit "High").
Proof.
  cbv zeta. unfold _estimate_complexity.
  destruct (Nat.ltb_spec 20 (length (splitlines code)));
    destruct (Nat.ltb_spec 1000 (length code));
    destruct (Nat.ltb_spec 10 (length (splitlines code)));
    destruct (Nat.ltb_spec 500 (length code));
    cbn [orb]; repeat split; intros;
    try reflexivity; try lia; try absurd_literal;
    intro; absurd_literal.
Qed.

(** C6. The suggestions [_suggest_improvements] reports are never empty:
    they are the suggestions its checks collected when there is one, and
    the single fallback suggestion when there is none.  On the empty text
    the first suggestion is the one for empty code, whatever diagram type
    is given. *)
Theorem suggest_improvements_nonempty (code : str) (diagram_type : value) :
  final_suggestions code diagram_type <> []
  /\ (collected_suggestions code diagram_type = [] ->
      final_suggestions code diagram_type = [LOOKS_GOOD])
  /\ (collected_suggestions code diagram_type <> [] ->
      final_suggestions code diagram_type = collected_suggestions code diagram_type)
  /\ In EMPTY_CODE (final_suggestions [] diagram_type)
  /\ head (final_suggestions [] diagram_type) = Some EMPTY_CODE.
Proof.
  unfold final_suggestions.
  split; [|split; [|split; [|split]]].
  - destruct (collected_suggestions code diagram_type); discriminate.
  - intros ->. reflexivity.
  - destruct (collected_suggestions code diagram_type); [congruence | reflexivity].
  - unfold collected_suggestions.
    destruct (bool_decide (diagram_type = VStr (lit "flowchart")));
      [| destruct (bool_decide (diagram_type = VStr (lit "sequence")))];
      vm_compute; auto.
  - unfold collected_suggestions.
    destruct (bool_decide (diagram_type = VStr (lit "flowchart")));
      [| destruct (bool_decide (diagram_type = VStr (lit "sequence")))];
      reflexivity.
Qed.

(** C10. The declaration check of [_suggest_improvements] compares case
    sensitively while [_detect_diagram_type] lower-cases first: on the text
    "Graph TD", a line break, "A-->B", the detected type is flowchart, and
    the handler called with that text and no diagram_type reports the
    missing-declaration suggestion. *)
Theorem declaration_check_is_case_sensitive :
  exists code : str,
    code = lit "Graph TD" ++ nl ++ lit "A-->B"
    /\ _detect_diagram_type code = lit "flowchart"
    /\ In MISSING_DECLARATION
          (final_suggestions code (VStr (_detect_diagram_type code)))
    /\ forall (srv : service) (log : list httpx.Request),
        exists t : str,
          _suggest_improvements {[ lit "code" := VStr code ]} srv log
          = (Returned [TextContent t], log)
          /\ contains (lit "Diagram Type: flowchart") t = true
          /\ contains MISSING_DECLARATION t = true.
Proof.
  eexists. split; [reflexivity|]. split; [reflexivity|].
  split; [vm_compute; auto|].
  intros srv log. eexists. split; [vm_compute; reflexivity|].
  split; vm_compute; reflexivity.
Qed.

(* ------------------------------------------------------------------ *)
(** ** Properties of the dispatcher *)

Lemma contains_here (sub rest : str) : startswith (sub ++ rest) sub = true.
Proof.
  induction sub as [|c sub IH]; simpl; [reflexivity|].
  rewrite N.eqb_refl. exact IH.
Qed.


Lemma call_tool_body_svg (arguments : gmap str value) :
  call_tool_body (lit "render_mermaid_svg") arguments = _render_svg arguments.
Proof. reflexivity. Qed.

Lemma call_tool_body_png (arguments : gmap str value) :
  call_tool_body (lit "render_mermaid_png") arguments = _render_png arguments.
Proof. reflexivity. Qed.

Lemma call_tool_body_validate (arguments : gmap str value) :
  call_tool_body (lit "validate_mermaid") arguments = _validate_mermaid arguments.
Proof. reflexivity. Qed.

Lemma call_tool_body_suggest (arguments : gmap str value) :
  call_tool_body (lit "suggest_mermaid_improvements") arguments
  = _suggest_improvements arguments.
Proof. reflexivity. Qed.

Lemma call_tool_body_unknown (name : str) (arguments : gmap str value) :
  ~ In name (map types.name handle_list_tools) ->
  call_tool_body name arguments = raise (ValueError (lit "Unknown tool: " ++ name)).
Proof.
  intros Hname. unfold call_tool_body, str_eqb.
  case_bool_decide as H1; [exfalso; apply Hname; rewrite H1; left; reflexivity|].
  case_bool_decide as H2;
    [exfalso; apply Hname; rewrite H2; right; left; reflexivity|].
  case_bool_decide as H3;
    [exfalso; apply Hname; rewrite H3; do 2 right; left; reflexivity|].
  case_bool_decide as H4;
    [exfalso; apply Hname; rewrite H4; do 3 right; left; reflexivity|].
  reflexivity.
Qed.

(** A handler that finds no [code] raises KeyError before any request. *)
Lemma handlers_need_code (name : str) (arguments : gmap str value)
      (srv : service) (log : list httpx.Request) :
  In name (map types.name handle_list_tools) ->
  arguments !! lit "code" = None ->
  call_tool_body name arguments srv log = (Raised (KeyError (lit "code")), log).
Proof.
  intros Hname Hcode.
  assert (Hget : getitem arguments (lit "code") = Raised (KeyError (lit "code")))
    by (unfold getitem; rewrite Hcode; reflexivity).
  simpl in Hname.
  destruct Hname as [<-|[<-|[<-|[<-|[]]]]].
  - rewrite call_tool_body_svg. unfold _render_svg, bind, lift. rewrite Hget. reflexivity.
  - rewrite call_tool_body_png. unfold _render_png, bind, lift. rewrite Hget. reflexivity.
  - rewrite call_tool_body_validate. unfold _validate_mermaid, bind, lift.
    rewrite Hget. reflexivity.
  - rewrite call_tool_body_suggest. unfold _suggest_improvements, bind, lift.
    rewrite Hget. reflexivity.
Qed.

(** C7. Called for render_mermaid_svg with an argument mapping that has no
    [code], the dispatcher answers the single text block "Error: 'code'"
    (the text of the KeyError) and the log of outbound requests is
    unchanged: no HTTP call is made. *)
Theorem render_svg_without_code_makes_no_request
        (arguments : gmap str value) (srv : service) (log : list httpx.Request) :
  arguments !! lit "code" = None ->
  handle_call_tool (lit "render_mermaid_svg") arguments srv log
  = (Returned [TextContent (lit "Error: 'code'")], log).
Proof.
  intros Hcode. unfold handle_call_tool, try_except.
  rewrite handlers_need_code; [reflexivity | vm_compute; tauto | assumption].
Qed.

Ltac run_handler H :=
  unfold bind, lift, ret, raise, post in H;
  repeat case_match; simplify_eq; eauto.

Lemma render_svg_single_block (arguments : gmap str value) (srv : service)
      (log log' : list httpx.Request) (r : list types.TextContent) :
  _render_svg arguments srv log = (Returned r, log') ->
  exists t, r = [TextContent t].
Proof. intros H. unfold _render_svg in H. run_handler H. Qed.

Lemma render_png_single_block (arguments : gmap str value) (srv : service)
      (log log' : list httpx.Request) (r : list types.TextContent) :
  _render_png arguments srv log = (Returned r, log') ->
  exists t, r = [TextContent t].
Proof. intros H. unfold _render_png in H. run_handler H. Qed.

Lemma validate_mermaid_single_block (arguments : gmap str value) (srv : service)
      (log log' : list httpx.Request) (r : list types.TextContent) :
  _validate_mermaid arguments srv log = (Returned r, log') ->
  exists t, r = [TextContent t].
Proof. intros H. unfold _validate_mermaid in H. run_handler H. Qed.

Lemma suggest_improvements_single_block (arguments : gmap str value) (srv : service)
      (log log' : list httpx.Request) (r : list types.TextContent) :
  _suggest_improvements arguments srv log = (Returned r, log') ->
  exists t, r = [TextContent t].
Proof. intros H. unfold _suggest_improvements in H. run_handler H. Qed.

Lemma call_tool_body_single_block (name : str) (arguments : gmap str value)
      (srv : service) (log log' : list httpx.Request) (r : list types.TextContent) :
  call_tool_body name arguments srv log = (Returned r, log') ->
  exists t, r = [TextContent t].
Proof.
  unfold call_tool_body. repeat case_match.
  - apply render_svg_single_block.
  - apply render_png_single_block.
  - apply validate_mermaid_single_block.
  - apply suggest_improvements_single_block.
  - discriminate.
Qed.

(** C1. For every tool name and every argument mapping the dispatcher
    returns, and what it returns is one text block.  When the body of its
    [try] returns, that is the handler's block; when the body raises an
    exception [e], whatever it is, the block's text is "Error: " followed by
    [str(e)], and nothing is raised to the caller.  A name outside the
    registry gives "Error: Unknown tool: " and the name; a registered tool
    called without [code] gives "Error: 'code'". *)
Theorem dispatch_always_answers (name : str) (arguments : gmap str value)
        (srv : service) (log : list httpx.Request) :
  (exists t, fst (handle_call_tool name arguments srv log) = Returned [TextContent t])
  /\ snd (handle_call_tool name arguments srv log)
     = snd (call_tool_body name arguments srv log)
  /\ (forall r, fst (call_tool_body name arguments srv log) = Returned r ->
        fst (handle_call_tool name arguments srv log) = Returned r)
  /\ (forall e, fst (call_tool_body name arguments srv log) = Raised e ->
        fst (handle_call_tool name arguments srv log)
        = Returned [TextContent (lit "Error: " ++ str_of_exn e)])
  /\ (~ In name (map types.name handle_list_tools) ->
        handle_call_tool name arguments srv log
        = (Returned [TextContent (lit "Error: Unknown tool: " ++ name)], log))
  /\ (In name (map types.name handle_list_tools) ->
        arguments !! lit "code" = None ->
        handle_call_tool name arguments srv log
        = (Returned [TextContent (lit "Error: 'code'")], log)).
Proof.
  unfold handle_call_tool, try_except.
  repeat split.
  - destruct (call_tool_body name arguments srv log) as [[r|e] log'] eqn:E.
    + destruct (call_tool_body_single_block _ _ _ _ _ _ E) as [t ->]. eauto.
    + simpl. eauto.
  - destruct (call_tool_body name arguments srv log) as [[r|e] log']; reflexivity.
  - intros r. destruct (call_tool_body name arguments srv log) as [[r'|e] log'];
      simpl; congruence.
  - intros e. destruct (call_tool_body name arguments srv log) as [[r|e'] log'];
      simpl; congruence.
  - intros Hname. rewrite call_tool_body_unknown by assumption. reflexivity.
  - intros Hname Hcode. rewrite handlers_need_code by assumption. reflexivity.
Qed.

(* ------------------------------------------------------------------ *)
(** ** base64: decoding inverts encoding *)

Ltac split_tests :=
  repeat match goal with
         | |- context [?a <? ?b] => destruct (N.ltb_spec a b)
         | |- context [?a <=? ?b] => destruct (N.leb_spec a b)
         | |- context [?a =? ?b] => destruct (N.eqb_spec a b)
         end; cbn [andb orb].

Lemma b64_char_ascii n : n < 64 -> b64_char n < 128.
Proof. intros. unfold b64_char. split_tests; lia. Qed.

Lemma b64_index_char n : n < 64 -> b64_index (b64_char n) = Some n.
Proof.
  intros. unfold b64_index, b64_char.
  split_tests; try lia; f_equal; lia.
Qed.

Lemma b64_char_not_pad n : n < 64 -> (b64_char n =? b64_pad) = false.
Proof.
  intros. apply N.eqb_neq. unfold b64_char, b64_pad. split_tests; lia.
Qed.

Lemma to_N_byte_of_N m : m < 256 -> Byte.to_N (byte_of_N m) = m.
Proof.
  intros Hm. unfold byte_of_N.
  pose proof (Byte.to_of_N_option_map m) as E.
  destruct (N.leb_spec m 255); [|lia].
  destruct (Byte.of_N m); simpl in *; congruence.
Qed.
(** [q * d + r] splits back into [q] and [r] when [r < d]. *)
Lemma div_mul_add (q r d : N) : r < d -> (q * d + r) / d = q.
Proof. intros. symmetry. apply (N.div_unique _ d q r); lia. Qed.

Lemma mod_mul_add (q r d : N) : r < d -> (q * d + r) mod d = r.
Proof. intros. symmetry. apply (N.mod_unique _ d q r); lia. Qed.

Lemma split_byte (a d : N) : d <> 0 -> a = a / d * d + a mod d /\ a mod d < d.
Proof.
  intros. split; [|apply N.mod_lt; assumption].
  rewrite N.mul_comm. apply N.div_mod. assumption.
Qed.

Lemma div_small (a d k : N) : d <> 0 -> a < d * k -> a / d < k.
Proof. intros. apply N.Div0.div_lt_upper_bound; assumption. Qed.

Lemma join_hi (a b : N) : b < 256 -> a / 4 * 4 + (a mod 4 * 16 + b / 16) / 16 = a.
Proof.
  intros Hb. pose proof (div_small b 16 16).
  rewrite div_mul_add by lia.
  destruct (split_byte a 4); lia.
Qed.

Lemma join_mid (a b c : N) :
  b < 256 -> c < 256 ->
  (a mod 4 * 16 + b / 16) mod 16 * 16 + (b mod 16 * 4 + c / 64) / 4 = b.
Proof.
  intros Hb Hc. pose proof (div_small b 16 16). pose proof (div_small c 64 4).
  rewrite mod_mul_add, div_mul_add by lia.
  destruct (split_byte b 16); lia.
Qed.

Lemma join_lo (b c : N) :
  c < 256 -> (b mod 16 * 4 + c / 64) mod 4 * 64 + c mod 64 = c.
Proof.
  intros Hc. pose proof (div_small c 64 4).
  rewrite mod_mul_add by lia.
  destruct (split_byte c 64); lia.
Qed.

Lemma sextet_bounds (a b c : N) :
  a < 256 -> b < 256 -> c < 256 ->
  a / 4 < 64 /\ a mod 4 * 16 + b / 16 < 64 /\ b mod 16 * 4 + c / 64 < 64
  /\ c mod 64 < 64 /\ a mod 4 * 16 < 64 /\ b mod 16 * 4 < 64.
Proof.
  intros. pose proof (div_small a 4 64). pose proof (div_small b 16 16).
  pose proof (div_small c 64 4).
  pose proof (N.mod_lt a 4). pose proof (N.mod_lt b 16). pose proof (N.mod_lt c 64).
  repeat split; lia.
Qed.

Lemma byte_lt (x : Byte.byte) : Byte.to_N x < 256.
Proof. pose proof (Byte.to_N_bounded x). lia. Qed.

Lemma decode_char n : n < 64 -> Byte.to_N (byte_of_N (b64_char n)) = b64_char n.
Proof. intros. apply to_N_byte_of_N. pose proof (b64_char_ascii n). lia. Qed.

Lemma b64decode_block3 (s0 s1 s2 s3 : N) (rest : str) :
  s0 < 64 -> s1 < 64 -> s2 < 64 -> s3 < 64 ->
  b64decode (b64_char s0 :: b64_char s1 :: b64_char s2 :: b64_char s3 :: rest)
  = (x ← Byte.of_N (s0 * 4 + s1 / 16);
     y ← Byte.of_N (s1 mod 16 * 16 + s2 / 4);
     z ← Byte.of_N (s2 mod 4 * 64 + s3);
     tail ← b64decode rest;
     Some (x :: y :: z :: tail)).
Proof.
  intros H0 H1 H2 H3. cbn [b64decode].
  rewrite !b64_index_char, !b64_char_not_pad by assumption.
  reflexivity.
Qed.

Lemma b64decode_block2 (s0 s1 s2 : N) :
  s0 < 64 -> s1 < 64 -> s2 < 64 ->
  b64decode [b64_char s0; b64_char s1; b64_char s2; b64_pad]
  = (x ← Byte.of_N (s0 * 4 + s1 / 16);
     y ← Byte.of_N (s1 mod 16 * 16 + s2 / 4);
     Some [x; y]).
Proof.
  intros H0 H1 H2. cbn [b64decode].
  rewrite !b64_index_char, !b64_char_not_pad by assumption.
  rewrite N.eqb_refl. reflexivity.
Qed.

Lemma b64decode_block1 (s0 s1 : N) :
  s0 < 64 -> s1 < 64 ->
  b64decode [b64_char s0; b64_char s1; b64_pad; b64_pad]
  = (x ← Byte.of_N (s0 * 4 + s1 / 16); Some [x]).
Proof.
  intros H0 H1. cbn [b64decode].
  rewrite !b64_index_char by assumption.
  rewrite !N.eqb_refl. reflexivity.
Qed.

Lemma pad_byte : Byte.to_N (byte_of_N b64_pad) = b64_pad.
Proof. reflexivity. Qed.

(** Decoding what [b64encode] produced gives the bytes back. *)
Lemma b64_round_trip (data : list Byte.byte) :
  b64decode (bytes_decode (b64encode data)) = Some data.
Proof.
  enough (H : b64decode (bytes_decode (b64encode data)) = Some data
              /\ (forall x, b64decode (bytes_decode (b64encode (x :: data)))
                            = Some (x :: data))
              /\ (forall x y, b64decode (bytes_decode (b64encode (x :: y :: data)))
                              = Some (x :: y :: data)))
    by apply H.
  induction data as [|z data (IH0 & IH1 & IH2)].
  - split; [reflexivity|]. split.
    + intros x. pose proof (byte_lt x) as Hx.
      destruct (sextet_bounds (Byte.to_N x) 0 0) as (? & ? & ? & ? & ? & ?);
        [lia..|].
      unfold bytes_decode. cbn [b64encode map].
      rewrite !decode_char, pad_byte by assumption.
      rewrite b64decode_block1 by assumption.
      rewrite N.div_mul by lia.
      destruct (split_byte (Byte.to_N x) 4) as [<- _]; [lia|].
      rewrite Byte.of_to_N. reflexivity.
    + intros x y. pose proof (byte_lt x) as Hx. pose proof (byte_lt y) as Hy.
      destruct (sextet_bounds (Byte.to_N x) (Byte.to_N y) 0) as (? & ? & ? & ? & ? & ?);
        [lia..|].
      unfold bytes_decode. cbn [b64encode map].
      rewrite !decode_char, pad_byte by assumption.
      rewrite b64decode_block2 by assumption.
      rewrite join_hi by assumption.
      rewrite mod_mul_add by (apply div_small; lia).
      rewrite N.div_mul by lia.
      destruct (split_byte (Byte.to_N y) 16) as [<- _]; [lia|].
      rewrite !Byte.of_to_N. reflexivity.
  - split; [apply IH1|]. split; [intros x; apply IH2|].
    intros x y. pose proof (byte_lt x) as Hx. pose proof (byte_lt y) as Hy.
    pose proof (byte_lt z) as Hz.
    destruct (sextet_bounds (Byte.to_N x) (Byte.to_N y) (Byte.to_N z))
      as (? & ? & ? & ? & ? & ?); [lia..|].
    unfold bytes_decode in *. cbn [b64encode]. rewrite map_app. cbn [map].
    rewrite !decode_char by assumption.
    cbn [app]. rewrite b64decode_block3 by assumption.
    rewrite join_hi, join_mid, join_lo by assumption.
    rewrite !Byte.of_to_N. cbn [mbind option_bind].
    rewrite IH0. reflexivity.
Qed.

(** Every character [b64encode] produces is ASCII, so [bytes_decode] is
    what [.decode()] does on its output. *)
Lemma b64encode_ascii (data : list Byte.byte) :
  Forall (fun c => c < 128) (bytes_decode (b64encode data)).
Proof.
  enough (H : Forall (fun c => c < 128) (bytes_decode (b64encode data))
              /\ (forall x, Forall (fun c => c < 128)
                                   (bytes_decode (b64encode (x :: data))))
              /\ (forall x y, Forall (fun c => c < 128)
                                     (bytes_decode (b64encode (x :: y :: data)))))
    by apply H.
  assert (Hpad : b64_pad < 128) by reflexivity.
  induction data as [|z data (IH0 & IH1 & IH2)].
  - split; [constructor|]. split.
    + intros x. pose proof (byte_lt x).
      destruct (sextet_bounds (Byte.to_N x) 0 0) as (? & ? & ? & ? & ? & ?);
        [lia..|].
      unfold bytes_decode. cbn [b64encode map].
      rewrite !decode_char, pad_byte by assumption.
      repeat constructor; try apply b64_char_ascii; assumption.
    + intros x y. pose proof (byte_lt x). pose proof (byte_lt y).
      destruct (sextet_bounds (Byte.to_N x) (Byte.to_N y) 0)
        as (? & ? & ? & ? & ? & ?); [lia..|].
      unfold bytes_decode. cbn [b64encode map].
      rewrite !decode_char, pad_byte by assumption.
      repeat constructor; try apply b64_char_ascii; assumption.
  - split; [apply IH1|]. split; [intros x; apply IH2|].
    intros x y. pose proof (byte_lt x). pose proof (byte_lt y). pose proof (byte_lt z).
    destruct (sextet_bounds (Byte.to_N x) (Byte.to_N y) (Byte.to_N z))
      as (? & ? & ? & ? & ? & ?); [lia..|].
    unfold bytes_decode in *. cbn [b64encode]. rewrite map_app. cbn [map].
    rewrite !decode_char by assumption. cbn [app].
    repeat constructor; try apply b64_char_ascii; assumption.
Qed.

(* ------------------------------------------------------------------ *)
(** ** The report of the suggestion handler *)

(** The report of [_suggest_improvements] on a text: the suggestions it
    joins are [final_suggestions] for the text and the diagram type given,
    or detected when none is given, and no request is made. *)
Lemma suggest_improvements_reports (arguments : gmap str value) (code : str)
      (srv : service) (log : list httpx.Request) :
  arguments !! lit "code" = Some (VStr code) ->
  let given := dict_get arguments (lit "diagram_type") VNone in
  let diagram_type :=
    if truthy given then given else VStr (_detect_diagram_type code) in
  exists header footer,
    _suggest_improvements arguments srv log
    = (Returned [TextContent
                   (header ++ join nl (final_suggestions code diagram_type)
                    ++ footer)],
       log).
Proof.
  intros Hcode given diagram_type.
  exists (lit "📊 Mermaid Code Analysis" ++ nl ++ nl
          ++ lit "Diagram Type: " ++ str_of_value diagram_type ++ nl
          ++ lit "Complexity: " ++ _estimate_complexity code ++ nl
          ++ lit "Lines: " ++ str_of_nat (length (splitlines (strip code)))
          ++ nl ++ nl
          ++ lit "💡 Suggestions for improvement:" ++ nl),
         (nl ++ nl
          ++ lit "🎨 Available themes: modern, classic, dark, minimal" ++ nl
          ++ lit "📐 Supported diagram types: flowchart, sequence, class, state, gantt, pie, journey, git").
  unfold _suggest_improvements, bind, lift, getitem, ret, str_method.
  rewrite Hcode. fold given. subst diagram_type.
  destruct (truthy given); cbn [negb]; rewrite <- !app_assoc; reflexivity.
Qed.

(* ------------------------------------------------------------------ *)
(** ** Properties of the render handlers *)

Lemma handle_call_tool_returned (name : str) (arguments : gmap str value)
      (srv : service) (log log' : list httpx.Request) (r : list types.TextContent) :
  call_tool_body name arguments srv log = (Returned r, log') ->
  handle_call_tool name arguments srv log = (Returned r, log').
Proof. intros E. unfold handle_call_tool, try_except. rewrite E. reflexivity. Qed.

Lemma handle_call_tool_raised (name : str) (arguments : gmap str value)
      (srv : service) (log log' : list httpx.Request) (e : exn) :
  call_tool_body name arguments srv log = (Raised e, log') ->
  handle_call_tool name arguments srv log
  = (Returned [TextContent (lit "Error: " ++ str_of_exn e)], log').
Proof. intros E. unfold handle_call_tool, try_except. rewrite E. reflexivity. Qed.



(** [_render_svg] with a [code]: one POST, then the answer decides. *)
Lemma render_svg_posts (arguments : gmap str value) (code : value)
      (srv : service) (log : list httpx.Request) :
  arguments !! lit "code" = Some code ->
  let theme := dict_get arguments (lit "theme") (VStr (lit "modern")) in
  snd (_render_svg arguments srv log) = log ++ [svg_request code theme 30].
Proof.
  intros Hcode theme. unfold _render_svg, bind, lift, post, getitem.
  rewrite Hcode. fold theme. fold (svg_request code theme 30).
  destruct (srv (svg_request code theme 30)); [|reflexivity].
  unfold ret. repeat case_match; reflexivity.
Qed.

Lemma render_png_posts (arguments : gmap str value) (code : value)
      (srv : service) (log : list httpx.Request) :
  arguments !! lit "code" = Some code ->
  let theme := dict_get arguments (lit "theme") (VStr (lit "modern")) in
  let scale := dict_get arguments (lit "scale") (VInt 2) in
  snd (_render_png arguments srv log) = log ++ [png_request code theme scale].
Proof.
  intros Hcode theme scale. unfold _render_png, bind, lift, post, getitem.
  rewrite Hcode. fold theme. fold scale. fold (png_request code theme scale).
  destruct (srv (png_request code theme scale)); [|reflexivity].
  unfold ret. repeat case_match; reflexivity.
Qed.

Lemma handle_call_tool_log (name : str) (arguments : gmap str value)
      (srv : service) (log : list httpx.Request) :
  snd (handle_call_tool name arguments srv log)
  = snd (call_tool_body name arguments srv log).
Proof.
  unfold handle_call_tool, try_except.
  destruct (call_tool_body name arguments srv log) as [[r|e] log']; reflexivity.
Qed.



(** C8. When the PNG endpoint answers 200 with the bytes [data], the text
    render_mermaid_png returns embeds the payload [b64encode(data)] twice,
    once between the base64 fence and once in the data URL, and decoding
    that payload gives exactly [data] back. *)
Theorem png_payload_round_trip
        (arguments : gmap str value) (code : value)
        (srv : service) (log : list httpx.Request) (response : httpx.Response) :
  arguments !! lit "code" = Some code ->
  (forall req, httpx.url req = api_base_url self ++ lit "/api/render/png" ->
               srv req = httpx.Responded response) ->
  httpx.status_code response = 200%Z ->
  let data := httpx.content response in
  let payload := bytes_decode (b64encode data) in
  (exists before between after,
      fst (handle_call_tool (lit "render_mermaid_png") arguments srv log)
      = Returned [TextContent
                    (before ++ lit "```base64" ++ nl ++ payload ++ nl ++ lit "```"
                     ++ between ++ lit "data:image/png;base64," ++ payload
                     ++ dq ++ after)])
  /\ b64decode payload = Some data.
Proof.
  intros Hcode Hsrv Hstatus data payload. split; [|apply b64_round_trip].
  set (theme := dict_get arguments (lit "theme") (VStr (lit "modern"))).
  set (scale := dict_get arguments (lit "scale") (VInt 2)).
  exists (lit "✅ PNG diagram generated successfully! ("
          ++ format_kb (length data) ++ lit " KB)" ++ nl ++ nl
          ++ lit "Theme: " ++ str_of_value theme ++ nl
          ++ lit "Scale: " ++ str_of_value scale ++ lit "x" ++ nl
          ++ lit "The PNG can be saved to a file or displayed in applications that support base64 images."
          ++ nl ++ nl
          ++ lit "To save this PNG, decode the base64 data below:" ++ nl ++ nl),
         (nl ++ nl ++ lit "Or use this data URL in HTML:" ++ nl
          ++ lit "```html" ++ nl ++ lit "<img src=" ++ dq),
         (lit " alt=" ++ dq ++ lit "Mermaid Diagram" ++ dq ++ lit ">"
          ++ nl ++ lit "```").
  erewrite handle_call_tool_returned;
    [|rewrite call_tool_body_png;
      unfold _render_png, bind, lift, post, getitem, ret;
      rewrite Hcode, Hsrv by reflexivity; rewrite Hstatus; reflexivity].
  cbn [fst]. rewrite <- !app_assoc. reflexivity.
Qed.

(** C2, as the code has it.  A transport failure of the outbound call is
    not intercepted by the render handlers: [_render_svg], [_render_png]
    and [_validate_mermaid] raise it.  The dispatcher is the boundary that
    intercepts it: after the one POST it answers the single text block
    "Error: " followed by the failure's message. *)
Theorem transport_fault_surfaces_at_dispatch
        (arguments : gmap str value) (code : value)
        (srv : service) (log : list httpx.Request) (msg : str) :
  arguments !! lit "code" = Some code ->
  (forall req, srv req = httpx.Failed msg) ->
  let theme := dict_get arguments (lit "theme") (VStr (lit "modern")) in
  let scale := dict_get arguments (lit "scale") (VInt 2) in
  _render_svg arguments srv log
  = (Raised (TransportError msg), log ++ [svg_request code theme 30])
  /\ _render_png arguments srv log
     = (Raised (TransportError msg), log ++ [png_request code theme scale])
  /\ _validate_mermaid arguments srv log
     = (Raised (TransportError msg),
        log ++ [svg_request code (VStr (lit "modern")) 15])
  /\ handle_call_tool (lit "render_mermaid_svg") arguments srv log
     = (Returned [TextContent (lit "Error: " ++ msg)],
        log ++ [svg_request code theme 30])
  /\ handle_call_tool (lit "render_mermaid_png") arguments srv log
     = (Returned [TextContent (lit "Error: " ++ msg)],
        log ++ [png_request code theme scale])
  /\ handle_call_tool (lit "validate_mermaid") arguments srv log
     = (Returned [TextContent (lit "Error: " ++ msg)],
        log ++ [svg_request code (VStr (lit "modern")) 15]).
Proof.
  intros Hcode Hsrv theme scale.
  assert (Hsvg : _render_svg arguments srv log
                 = (Raised (TransportError msg), log ++ [svg_request code theme 30])).
  { unfold _render_svg, bind, lift, post, getitem. rewrite Hcode, Hsrv. reflexivity. }
  assert (Hpng : _render_png arguments srv log
                 = (Raised (TransportError msg), log ++ [png_request code theme scale])).
  { unfold _render_png, bind, lift, post, getitem. rewrite Hcode, Hsrv. reflexivity. }
  assert (Hval : _validate_mermaid arguments srv log
                 = (Raised (TransportError msg),
                    log ++ [svg_request code (VStr (lit "modern")) 15])).
  { unfold _validate_mermaid, bind, lift, post, getitem.
    rewrite Hcode, Hsrv. reflexivity. }
  repeat split; try assumption.
  - apply (handle_call_tool_raised _ _ _ _ _ (TransportError msg)).
    rewrite call_tool_body_svg. exact Hsvg.
  - apply (handle_call_tool_raised _ _ _ _ _ (TransportError msg)).
    rewrite call_tool_body_png. exact Hpng.
  - apply (handle_call_tool_raised _ _ _ _ _ (TransportError msg)).
    rewrite call_tool_body_validate. exact Hval.
Qed.

(** On an answer that is not a 200 the three handlers report
    [failure_message], or raise what it raises. *)
Lemma not_200_reports (arguments : gmap str value) (code : value)
      (srv : service) (log : list httpx.Request) (response : httpx.Response) :
  arguments !! lit "code" = Some code ->
  (forall req, srv req = httpx.Responded response) ->
  httpx.status_code response <> 200%Z ->
  let report (text_of : str -> str) : result (list types.TextContent) :=
    match failure_message response with
    | Returned error => Returned [TextContent (text_of (str_of_value error))]
    | Raised e => Raised e
    end in
  fst (_render_svg arguments srv log)
  = report (fun m => lit "❌ Failed to render SVG: " ++ m)
  /\ fst (_render_png arguments srv log)
     = report (fun m => lit "❌ Failed to render PNG: " ++ m)
  /\ fst (_validate_mermaid arguments srv log) = report invalid_report.
Proof.
  intros Hcode Hsrv Hstatus report. subst report.
  unfold failure_message, invalid_report, COMMON_ISSUES. cbn [join].
  apply Z.eqb_neq in Hstatus.
  repeat split.
  - unfold _render_svg, bind, lift, post, getitem, ret.
    rewrite Hcode, Hsrv, Hstatus.
    destruct (error_data response) as [j|e]; [|reflexivity].
    destruct (json_get j _ _); reflexivity.
  - unfold _render_png, bind, lift, post, getitem, ret.
    rewrite Hcode, Hsrv, Hstatus.
    destruct (error_data response) as [j|e]; [|reflexivity].
    destruct (json_get j _ _); reflexivity.
  - unfold _validate_mermaid, bind, lift, post, getitem, ret.
    rewrite Hcode, Hsrv, Hstatus.
    destruct (error_data response) as [j|e]; [|reflexivity].
    destruct (json_get j _ _); reflexivity.
Qed.

(** C3, as the code has it.  On an answer that is not a 200 the content
    type decides.  When it does not start with application/json the
    message is the raw body text, whatever the body holds.  When it does,
    the body is parsed and, for a JSON object, the message is its [error]
    field, or "Unknown error" when the object has no such field.  For
    HTTP 500 with a JSON content type and body {"error":"parse error"},
    validate_mermaid answers an invalid-shaped text that contains
    "parse error" and the four troubleshooting hints. *)
Theorem failure_message_follows_content_type
        (arguments : gmap str value) (code : value)
        (srv : service) (log : list httpx.Request) (response : httpx.Response) :
  arguments !! lit "code" = Some code ->
  (forall req, srv req = httpx.Responded response) ->
  httpx.status_code response <> 200%Z ->
  let json_typed :=
    startswith (dict_get (httpx.headers response) (lit "content-type") [])
               (lit "application/json") in
  let reports (m : str) :=
    fst (_render_svg arguments srv log)
    = Returned [TextContent (lit "❌ Failed to render SVG: " ++ m)]
    /\ fst (_render_png arguments srv log)
       = Returned [TextContent (lit "❌ Failed to render PNG: " ++ m)]
    /\ fst (_validate_mermaid arguments srv log)
       = Returned [TextContent (invalid_report m)] in
  (json_typed = false -> reports (httpx.text response))
  /\ (json_typed = true ->
      forall d, httpx.parsed response = Returned (JDict d) ->
        (forall v, d !! lit "error" = Some v -> reports (str_of_value v))
        /\ (d !! lit "error" = None -> reports (lit "Unknown error")))
  /\ (response = parse_error_500 ->
      exists t,
        handle_call_tool (lit "validate_mermaid") arguments srv log
        = (Returned [TextContent t],
           log ++ [svg_request code (VStr (lit "modern")) 15])
        /\ startswith t (lit "❌ Mermaid syntax is invalid!") = true
        /\ contains (lit "parse error") t = true
        /\ Forall (fun hint => contains hint t = true) COMMON_ISSUES).
Proof.
  intros Hcode Hsrv Hstatus json_typed reports.
  destruct (not_200_reports arguments code srv log response Hcode Hsrv Hstatus)
    as (Hsvg & Hpng & Hval).
  cbv zeta in Hsvg, Hpng, Hval.
  assert (Hmsg : forall v, failure_message response = Returned v ->
                           reports (str_of_value v)).
  { intros v E. subst reports. cbv beta. rewrite E in Hsvg, Hpng, Hval. auto. }
  split; [|split].
  - intros Hjt. apply (Hmsg (VStr (httpx.text response))).
    unfold failure_message, error_data. fold json_typed. rewrite Hjt.
    unfold json_get, dict_get. rewrite lookup_singleton_eq. reflexivity.
  - intros Hjt d Hd. split.
    + intros v Hv. apply Hmsg.
      unfold failure_message, error_data. fold json_typed. rewrite Hjt, Hd.
      unfold json_get, dict_get. rewrite Hv. reflexivity.
    + intros Hv. apply (Hmsg (VStr (lit "Unknown error"))).
      unfold failure_message, error_data. fold json_typed. rewrite Hjt, Hd.
      unfold json_get, dict_get. rewrite Hv. reflexivity.
  - intros ->. eexists. split.
    + apply handle_call_tool_returned. rewrite call_tool_body_validate.
      unfold _validate_mermaid, bind, lift, post, getitem, ret.
      rewrite Hcode, Hsrv. reflexivity.
    + split; [vm_compute; reflexivity|]. split; [vm_compute; reflexivity|].
      vm_compute. repeat constructor.
Qed.

(* ------------------------------------------------------------------ *)
(** ** Further properties: the configured URL *)

(** [lstrip_with] removes a run of characters [p] accepts and stops at the
    first one it rejects. *)
Lemma lstrip_with_split (p : N -> bool) (s : str) :
  exists removed,
    s = removed ++ lstrip_with p s
    /\ Forall (fun c => p c = true) removed
    /\ (forall c, head (lstrip_with p s) = Some c -> p c = false).
Proof.
  induction s as [|c s (removed & Hs & Hall & Hhead)]; simpl.
  - exists []. split; [reflexivity|]. split; [constructor | discriminate].
  - destruct (p c) eqn:Hc.
    + exists (c :: removed). split; [simpl; congruence|].
      split; [constructor; assumption | assumption].
    + exists []. split; [reflexivity|]. split; [constructor|].
      simpl. congruence.
Qed.

Lemma last_of_rev (s : str) : last (rev s) = head s.
Proof. destruct s as [|c s]; [reflexivity|]. simpl. apply last_snoc. Qed.

Lemma head_of_rev (s : str) : head (rev s) = last s.
Proof. rewrite <- (rev_involutive s) at 2. symmetry. apply last_of_rev. Qed.

Lemma rstrip_with_split (p : N -> bool) (s : str) :
  exists removed,
    s = rstrip_with p s ++ removed
    /\ Forall (fun c => p c = true) removed
    /\ (forall c, last (rstrip_with p s) = Some c -> p c = false).
Proof.
  unfold rstrip_with.
  destruct (lstrip_with_split p (rev s)) as (removed & Hs & Hall & Hhead).
  exists (rev removed). split; [|split].
  - rewrite <- rev_app_distr, <- Hs, rev_involutive. reflexivity.
  - apply List.Forall_rev, Hall.
  - intros c Hc. apply Hhead.
    rewrite <- last_of_rev. exact Hc.
Qed.

(** What [rstrip_with] kept ends with a rejected character: stripping it
    again changes nothing. *)
Lemma rstrip_with_idempotent (p : N -> bool) (s : str) :
  rstrip_with p (rstrip_with p s) = rstrip_with p s.
Proof.
  destruct (rstrip_with_split p s) as (_ & _ & _ & Hlast).
  unfold rstrip_with at 1.
  destruct (rev (rstrip_with p s)) as [|c r] eqn:E.
  - apply (f_equal (@rev N)) in E. rewrite rev_involutive in E. rewrite E. reflexivity.
  - assert (Hc : p c = false).
    { apply Hlast. rewrite <- head_of_rev, E. reflexivity. }
    simpl. rewrite Hc. rewrite <- E. apply rev_involutive.
Qed.

(** The server keeps the configured URL without its trailing slashes: the
    URL is the kept base followed by slashes only, the base does not end
    with a slash, and configuring the base again changes nothing. *)
Theorem init_strips_trailing_slashes (url : str) :
  let base := api_base_url (__init__ url) in
  (exists n, url = base ++ repeat 47 n)
  /\ last base <> Some 47
  /\ ~ (exists b, base = b ++ lit "/")
  /\ api_base_url (__init__ base) = base.
Proof.
  cbv zeta. unfold __init__, rstrip. cbn [api_base_url].
  set (p := fun c : N => existsb (N.eqb c) (lit "/")).
  assert (Hp : forall c, p c = true <-> c = 47).
  { intros c. unfold p. change (lit "/") with [47]. simpl.
    rewrite orb_false_r. apply N.eqb_eq. }
  destruct (rstrip_with_split p url) as (removed & Hurl & Hall & Hlast).
  assert (Hnot : last (rstrip_with p url) <> Some 47).
  { intros H. apply Hlast in H. assert (p 47 = true) by (apply Hp; reflexivity).
    congruence. }
  split; [|split; [|split]].
  - exists (length removed). rewrite Hurl at 1. f_equal.
    clear Hurl. induction Hall as [|c removed Hc _ IH]; [reflexivity|].
    simpl. apply Hp in Hc. subst c. f_equal. exact IH.
  - exact Hnot.
  - intros [b Hb]. apply Hnot. rewrite Hb. change (lit "/") with [47].
    apply last_snoc.
  - apply rstrip_with_idempotent.
Qed.

(* ------------------------------------------------------------------ *)
(** ** Further properties: the dispatcher and its requests *)





(** Each tool reads only its own arguments.  Two argument mappings that
    agree on [code] and [theme] get the same answer and the same request
    from render_mermaid_svg; on [code], [theme] and [scale] from
    render_mermaid_png; on [code] alone from validate_mermaid; on [code]
    and [diagram_type] from suggest_mermaid_improvements.  Whatever else
    the caller passes is ignored. *)
Theorem other_arguments_are_ignored (arguments arguments' : gmap str value)
        (srv : service) (log : list httpx.Request) :
  arguments !! lit "code" = arguments' !! lit "code" ->
  (arguments !! lit "theme" = arguments' !! lit "theme" ->
   handle_call_tool (lit "render_mermaid_svg") arguments srv log
   = handle_call_tool (lit "render_mermaid_svg") arguments' srv log)
  /\ (arguments !! lit "theme" = arguments' !! lit "theme" ->
      arguments !! lit "scale" = arguments' !! lit "scale" ->
      handle_call_tool (lit "render_mermaid_png") arguments srv log
      = handle_call_tool (lit "render_mermaid_png") arguments' srv log)
  /\ handle_call_tool (lit "validate_mermaid") arguments srv log
     = handle_call_tool (lit "validate_mermaid") arguments' srv log
  /\ (arguments !! lit "diagram_type" = arguments' !! lit "diagram_type" ->
      handle_call_tool (lit "suggest_mermaid_improvements") arguments srv log
      = handle_call_tool (lit "suggest_mermaid_improvements") arguments' srv log).
Proof.
  intros Hcode. unfold handle_call_tool, try_except.
  split; [|split; [|split]].
  - intros Htheme.
    rewrite (call_tool_body_svg arguments), (call_tool_body_svg arguments').
    unfold _render_svg, getitem, dict_get.
    rewrite Hcode, Htheme. reflexivity.
  - intros Htheme Hscale.
    rewrite (call_tool_body_png arguments), (call_tool_body_png arguments').
    unfold _render_png, getitem, dict_get.
    rewrite Hcode, Htheme, Hscale. reflexivity.
  - rewrite (call_tool_body_validate arguments), (call_tool_body_validate arguments').
    unfold _validate_mermaid, getitem. rewrite Hcode. reflexivity.
  - intros Htype.
    rewrite (call_tool_body_suggest arguments), (call_tool_body_suggest arguments').
    unfold _suggest_improvements, getitem, dict_get.
    rewrite Hcode, Htype. reflexivity.
Qed.

Lemma handle_call_tool_fst_returned (name : str) (arguments : gmap str value)
      (srv : service) (log : list httpx.Request) (r : list types.TextContent) :
  fst (call_tool_body name arguments srv log) = Returned r ->
  fst (handle_call_tool name arguments srv log) = Returned r.
Proof.
  unfold handle_call_tool, try_except.
  destruct (call_tool_body name arguments srv log) as [[r'|e] log'];
    simpl; congruence.
Qed.

Lemma handle_call_tool_fst_raised (name : str) (arguments : gmap str value)
      (srv : service) (log : list httpx.Request) (e : exn) :
  fst (call_tool_body name arguments srv log) = Raised e ->
  fst (handle_call_tool name arguments srv log)
  = Returned [TextContent (lit "Error: " ++ str_of_exn e)].
Proof.
  unfold handle_call_tool, try_except.
  destruct (call_tool_body name arguments srv log) as [[r|e'] log'];
    simpl; congruence.
Qed.

(** The registry and the dispatcher agree on the tools: the four
    registered names are distinct, and a name is registered exactly when
    the dispatcher hands the call to one of the four handlers (any other
    name is answered as an unknown tool, see [call_tool_body_unknown]). *)
Theorem registry_lists_the_routed_tools (name : str) :
  NoDup (map types.name handle_list_tools)
  /\ (In name (map types.name handle_list_tools)
      <-> exists handler,
            In handler [_render_svg; _render_png; _validate_mermaid;
                        _suggest_improvements]
            /\ forall arguments srv log,
                call_tool_body name arguments srv log = handler arguments srv log).
Proof.
  split.
  - apply (bool_decide_unpack _). vm_compute. exact I.
  - split.
    + intros Hin. simpl in Hin. destruct Hin as [<-|[<-|[<-|[<-|[]]]]].
      * exists _render_svg. split; [left; reflexivity|].
        intros. rewrite call_tool_body_svg. reflexivity.
      * exists _render_png. split; [right; left; reflexivity|].
        intros. rewrite call_tool_body_png. reflexivity.
      * exists _validate_mermaid. split; [do 2 right; left; reflexivity|].
        intros. rewrite call_tool_body_validate. reflexivity.
      * exists _suggest_improvements. split; [do 3 right; left; reflexivity|].
        intros. rewrite call_tool_body_suggest. reflexivity.
    + intros (handler & Hhandler & Hrouted).
      destruct (decide (In name (map types.name handle_list_tools)))
        as [Hin|Hout]; [exact Hin|]. exfalso.
      specialize (Hrouted ∅ (fun _ => httpx.Failed []) []).
      rewrite (call_tool_body_unknown name ∅ Hout) in Hrouted.
      simpl in Hhandler.
      destruct Hhandler as [<-|[<-|[<-|[<-|[]]]]]; discriminate Hrouted.
Qed.

(** The registry and the handlers agree on defaults.  Every default the
    registry declares lies within the enum or the bounds declared beside
    it; and when the caller gives no [theme] (no [scale]) the request
    carries exactly the default the registry declares for that tool. *)
Theorem defaults_are_the_declared_ones (arguments : gmap str value) (code : value)
        (srv : service) (log : list httpx.Request) :
  arguments !! lit "code" = Some code ->
  (forall tool key schema d,
      In tool handle_list_tools ->
      property_schema tool key = Some schema ->
      declared_default schema = Some d ->
      within schema d = true)
  /\ (arguments !! lit "theme" = None ->
      exists schema d,
        declared_schema (lit "render_mermaid_svg") (lit "theme") = Some schema
        /\ declared_default schema = Some d
        /\ snd (handle_call_tool (lit "render_mermaid_svg") arguments srv log)
           = log ++ [svg_request code d 30])
  /\ (arguments !! lit "theme" = None ->
      arguments !! lit "scale" = None ->
      exists theme_schema theme scale_schema scale,
        declared_schema (lit "render_mermaid_png") (lit "theme") = Some theme_schema
        /\ declared_default theme_schema = Some theme
        /\ declared_schema (lit "render_mermaid_png") (lit "scale") = Some scale_schema
        /\ declared_default scale_schema = Some scale
        /\ snd (handle_call_tool (lit "render_mermaid_png") arguments srv log)
           = log ++ [png_request code theme scale]).
Proof.
  intros Hcode. split; [|split].
  - intros tool key schema d Htool Hschema Hdefault.
    simpl in Htool. destruct Htool as [<-|[<-|[<-|[<-|[]]]]];
      unfold property_schema in Hschema; cbn [types.inputSchema find] in Hschema;
      repeat case_match; simplify_eq; cbn in Hdefault; simplify_eq; reflexivity.
  - intros Htheme. eexists _, _.
    split; [reflexivity|]. split; [reflexivity|].
    rewrite handle_call_tool_log, call_tool_body_svg.
    rewrite (render_svg_posts _ code) by assumption.
    unfold dict_get. rewrite Htheme. reflexivity.
  - intros Htheme Hscale. eexists _, _, _, _.
    split; [reflexivity|]. split; [reflexivity|].
    split; [reflexivity|]. split; [reflexivity|].
    rewrite handle_call_tool_log, call_tool_body_png.
    rewrite (render_png_posts _ code) by assumption.
    unfold dict_get. rewrite Htheme, Hscale. reflexivity.
Qed.


(** A failure answer whose body is announced as JSON and is no JSON
    object.  When the body does not parse, or parses to an array or to a
    scalar, the handler raises (the decoder's error, or AttributeError for
    the missing [get]) and the dispatcher answers "Error: " followed by
    that error's text, not a "Failed to render" report. *)
Theorem json_body_that_is_no_object (arguments : gmap str value) (code : value)
        (srv : service) (log : list httpx.Request)
        (response : httpx.Response) (e : exn) :
  arguments !! lit "code" = Some code ->
  (forall req, srv req = httpx.Responded response) ->
  httpx.status_code response <> 200%Z ->
  startswith (dict_get (httpx.headers response) (lit "content-type") [])
             (lit "application/json") = true ->
  httpx.parsed response = Raised e
  \/ (httpx.parsed response = Returned JList
      /\ e = AttributeError (lit "list") (lit "get"))
  \/ (exists v, httpx.parsed response = Returned (JScalar v)
                /\ e = AttributeError (type_name v) (lit "get")) ->
  let answer := Returned [TextContent (lit "Error: " ++ str_of_exn e)] in
  fst (handle_call_tool (lit "render_mermaid_svg") arguments srv log) = answer
  /\ fst (handle_call_tool (lit "render_mermaid_png") arguments srv log) = answer
  /\ fst (handle_call_tool (lit "validate_mermaid") arguments srv log) = answer.
Proof.
  intros Hcode Hsrv Hstatus Htyped Hparsed answer. subst answer.
  assert (Hmsg : failure_message response = Raised e).
  { unfold failure_message, error_data. rewrite Htyped.
    destruct Hparsed as [-> | [[-> ->] | (v & -> & ->)]]; reflexivity. }
  destruct (not_200_reports arguments code srv log response Hcode Hsrv Hstatus)
    as (Hsvg & Hpng & Hval).
  cbv zeta in Hsvg, Hpng, Hval. rewrite Hmsg in Hsvg, Hpng, Hval.
  split; [|split]; apply handle_call_tool_fst_raised.
  - rewrite call_tool_body_svg. exact Hsvg.
  - rewrite call_tool_body_png. exact Hpng.
  - rewrite call_tool_body_validate. exact Hval.
Qed.

Lemma diagram_type_is_not_code : lit "diagram_type" <> lit "code".
Proof. intros H. apply (f_equal head) in H. cbv in H. discriminate H. Qed.

(** A [diagram_type] that is falsy (None, False, 0 or the empty text) is
    the same as none at all: suggest_mermaid_improvements detects the type
    from the code in both cases and gives the same answer. *)
Theorem falsy_diagram_type_is_none (arguments : gmap str value)
        (diagram_type : value) (srv : service) (log : list httpx.Request) :
  truthy diagram_type = false ->
  handle_call_tool (lit "suggest_mermaid_improvements")
                   (<[lit "diagram_type" := diagram_type]> arguments) srv log
  = handle_call_tool (lit "suggest_mermaid_improvements")
                     (delete (lit "diagram_type") arguments) srv log.
Proof.
  intros Hfalsy. unfold handle_call_tool, try_except.
  rewrite (call_tool_body_suggest (<[lit "diagram_type" := diagram_type]> arguments)),
    (call_tool_body_suggest (delete (lit "diagram_type") arguments)).
  unfold _suggest_improvements, getitem, dict_get.
  rewrite lookup_insert_ne by exact diagram_type_is_not_code.
  rewrite lookup_delete_ne by exact diagram_type_is_not_code.
  rewrite lookup_insert_eq, lookup_delete_eq.
  cbn [from_option id]. rewrite Hfalsy. reflexivity.
Qed.

(** The first character of the answer tells the outcome of a render
    call.  When the service answers, render_mermaid_svg and
    render_mermaid_png called with a [code] return a text that starts with
    the check mark exactly when the status is 200; any other status gives
    a text that starts with the cross mark or with "Error: ". *)
Theorem check_mark_iff_200 (arguments : gmap str value) (code : value)
        (srv : service) (log : list httpx.Request) (response : httpx.Response)
        (name : str) :
  arguments !! lit "code" = Some code ->
  (forall req, srv req = httpx.Responded response) ->
  name = lit "render_mermaid_svg" \/ name = lit "render_mermaid_png" ->
  exists t,
    fst (handle_call_tool name arguments srv log) = Returned [TextContent t]
    /\ (startswith t (lit "✅") = true <-> httpx.status_code response = 200%Z)
    /\ (httpx.status_code response <> 200%Z ->
        startswith t (lit "❌") = true \/ startswith t (lit "Error: ") = true).
Proof.
  intros Hcode Hsrv Hname.
  destruct (Z.eq_dec (httpx.status_code response) 200%Z) as [Hstatus|Hstatus].
  - destruct Hname as [-> | ->]; eexists; (split; [|split]).
    + apply handle_call_tool_fst_returned. rewrite call_tool_body_svg.
      unfold _render_svg, bind, lift, post, getitem, ret.
      rewrite Hcode, Hsrv, Hstatus. reflexivity.
    + split; [intros _; exact Hstatus | intros _; reflexivity].
    + intros Hne. contradiction.
    + apply handle_call_tool_fst_returned. rewrite call_tool_body_png.
      unfold _render_png, bind, lift, post, getitem, ret.
      rewrite Hcode, Hsrv, Hstatus. reflexivity.
    + split; [intros _; exact Hstatus | intros _; reflexivity].
    + intros Hne. contradiction.
  - destruct (not_200_reports arguments code srv log response Hcode Hsrv Hstatus)
      as (Hsvg & Hpng & _).
    cbv zeta in Hsvg, Hpng.
    destruct (failure_message response) as [error|e];
      destruct Hname as [-> | ->]; eexists; (split; [|split]).
    + apply handle_call_tool_fst_returned. rewrite call_tool_body_svg. exact Hsvg.
    + split; [intros H; discriminate H | intros H; contradiction].
    + intros _. left. reflexivity.
    + apply handle_call_tool_fst_returned. rewrite call_tool_body_png. exact Hpng.
    + split; [intros H; discriminate H | intros H; contradiction].
    + intros _. left. reflexivity.
    + apply handle_call_tool_fst_raised. rewrite call_tool_body_svg. exact Hsvg.
    + split; [intros H; discriminate H | intros H; contradiction].
    + intros _. right. reflexivity.
    + apply handle_call_tool_fst_raised. rewrite call_tool_body_png. exact Hpng.
    + split; [intros H; discriminate H | intros H; contradiction].
    + intros _. right. reflexivity.
Qed.

(* ------------------------------------------------------------------ *)
(** ** Further properties: the diagram heuristics *)

(** [lower] on an ASCII stretch of the text is the map A-Z to a-z. *)
Lemma lower_from_ascii (whole : str) (i : nat) (head rest : str) :
  Forall (fun c => c < 128) head ->
  lower_from whole i (head ++ rest)
  = map ascii_lower head ++ lower_from whole (i + length head) rest.
Proof.
  intros Hhead. revert i.
  induction Hhead as [|c head Hc _ IH]; intros i; simpl.
  - rewrite Nat.add_0_r. reflexivity.
  - apply N.ltb_lt in Hc. rewrite Hc. simpl. rewrite IH.
    rewrite Nat.add_succ_r. reflexivity.
Qed.

Lemma ascii_space_is_kept (c : N) :
  c < 128 -> is_space c = true -> ascii_lower c = c /\ is_space (ascii_lower c) = true.
Proof.
  intros Hc Hspace.
  assert (H : ascii_lower c = c).
  { unfold ascii_lower. unfold is_space in Hspace.
    destruct (N.leb_spec 65 c); [|reflexivity].
    destruct (N.leb_spec c 90); [|reflexivity].
    exfalso.
    assert (H13 : (c <=? 13) = false) by (apply N.leb_gt; lia).
    assert (H32 : (c <=? 32) = false) by (apply N.leb_gt; lia).
    assert (H8192 : (8192 <=? c) = false) by (apply N.leb_gt; lia).
    assert (Hne : forall n, 128 <= n -> (c =? n) = false)
      by (intros n Hn; apply N.eqb_neq; lia).
    rewrite H13, H32, H8192, !Hne in Hspace by lia.
    rewrite !andb_false_r in Hspace. discriminate Hspace. }
  rewrite H. split; [reflexivity | assumption].
Qed.

Lemma lstrip_with_all (p : N -> bool) (pad s : str) :
  Forall (fun c => p c = true) pad -> lstrip_with p (pad ++ s) = lstrip_with p s.
Proof.
  induction 1 as [|c pad Hc _ IH]; simpl; [reflexivity|]. rewrite Hc. exact IH.
Qed.

Lemma lstrip_with_app (p : N -> bool) (a b : str) :
  lstrip_with p (a ++ b)
  = match lstrip_with p a with
    | [] => lstrip_with p b
    | kept => kept ++ b
    end.
Proof.
  induction a as [|c a IH]; simpl; [reflexivity|].
  destruct (p c); [exact IH | reflexivity].
Qed.

(** Stripping on the right never reaches past a rejected character. *)
Lemma rstrip_with_keeps (p : N -> bool) (k : str) (z : N) (rest : str) :
  p z = false ->
  exists kept, rstrip_with p ((k ++ [z]) ++ rest) = (k ++ [z]) ++ kept.
Proof.
  intros Hz. unfold rstrip_with.
  rewrite rev_app_distr, rev_app_distr. simpl rev at 2. simpl app at 2.
  rewrite lstrip_with_app.
  destruct (lstrip_with p (rev rest)) as [|c kept].
  - exists []. simpl. rewrite Hz. simpl. rewrite rev_involutive, app_nil_r.
    reflexivity.
  - exists (rev (c :: kept)). rewrite rev_app_distr. simpl rev at 1.
    rewrite rev_involutive. reflexivity.
Qed.

(** No prefix of the table starts or ends with a white space. *)
Lemma prefixes_have_no_space (kw ty : str) :
  In (kw, ty) PREFIX_TABLE ->
  exists a z, head kw = Some a /\ last kw = Some z
              /\ is_space a = false /\ is_space z = false.
Proof.
  intros Hin. simpl in Hin.
  repeat (destruct Hin as [Hin|Hin];
          [injection Hin as <- <-; eexists _, _; repeat split; reflexivity|]).
  destruct Hin.
Qed.

(** The prefix found decides the result, whatever its place in the table. *)
Lemma detect_of_each_prefix (code : str) :
  (startswith (strip (lower code)) (lit "sequencediagram") = true ->
   _detect_diagram_type code = lit "sequence")
  /\ (startswith (strip (lower code)) (lit "classdiagram") = true ->
      _detect_diagram_type code = lit "class")
  /\ (startswith (strip (lower code)) (lit "statediagram") = true ->
      _detect_diagram_type code = lit "state")
  /\ (startswith (strip (lower code)) (lit "gantt") = true ->
      _detect_diagram_type code = lit "gantt")
  /\ (startswith (strip (lower code)) (lit "pie") = true ->
      _detect_diagram_type code = lit "pie")
  /\ (startswith (strip (lower code)) (lit "journey") = true ->
      _detect_diagram_type code = lit "journey")
  /\ (startswith (strip (lower code)) (lit "gitgraph") = true ->
      _detect_diagram_type code = lit "git")
  /\ (startswith (strip (lower code)) (lit "graph") = true ->
      _detect_diagram_type code = lit "flowchart")
  /\ (startswith (strip (lower code)) (lit "flowchart") = true ->
      _detect_diagram_type code = lit "flowchart").
Proof.
  unfold _detect_diagram_type.
  generalize (strip (lower code)) as s. intros s.
  split_prefix_tests s; cbn [orb];
    repeat split; intros H; try reflexivity; discriminate H.
Qed.

Lemma detect_of_prefix (kw ty code : str) :
  In (kw, ty) PREFIX_TABLE ->
  startswith (strip (lower code)) kw = true ->
  _detect_diagram_type code = ty.
Proof.
  intros Hin.
  destruct (detect_of_each_prefix code)
    as (H1 & H2 & H3 & H4 & H5 & H6 & H7 & H8 & H9).
  simpl in Hin.
  destruct Hin as [E|[E|[E|[E|[E|[E|[E|[E|[E|[]]]]]]]]]];
    injection E as <- <-; assumption.
Qed.

(** A declaration at the start of the text decides the type.  When the
    text is ASCII white space, then a declaration keyword of the table in
    any letter case, then anything at all, [_detect_diagram_type] returns
    the type of that keyword. *)
Theorem declaration_decides_the_type (kw ty pad head rest : str) :
  In (kw, ty) PREFIX_TABLE ->
  Forall (fun c => c < 128 /\ is_space c = true) pad ->
  Forall (fun c => c < 128) head ->
  map ascii_lower head = kw ->
  _detect_diagram_type (pad ++ head ++ rest) = ty.
Proof.
  intros Hin Hpad Hhead Hkw.
  apply (detect_of_prefix kw ty); [assumption|].
  destruct (prefixes_have_no_space kw ty Hin) as (a & z & Ha & Hz & Hsa & Hsz).
  unfold lower.
  rewrite lower_from_ascii
    by (eapply Forall_impl; [exact Hpad | intros c [Hc _]; exact Hc]).
  rewrite lower_from_ascii by assumption. rewrite Hkw.
  unfold strip. rewrite lstrip_with_all.
  2:{ apply Forall_map. eapply Forall_impl; [exact Hpad|].
      intros c [Hc Hs]. apply ascii_space_is_kept; assumption. }
  destruct kw as [|a' kw']; [discriminate Ha|].
  injection Ha as ->. simpl app. simpl lstrip_with. rewrite Hsa.
  change (a :: kw' ++ ?r) with ((a :: kw') ++ r).
  apply last_Some in Hz as [k Hk]. rewrite Hk.
  match goal with
  | |- context [rstrip_with is_space ((k ++ [z]) ++ ?r)] =>
    destruct (rstrip_with_keeps is_space k z r Hsz) as [kept ->]
  end.
  apply contains_here.
Qed.

Ltac in_order :=
  cbn [app];
  repeat match goal with
         | |- sublist [] _ => apply sublist_nil_l
         | |- sublist (?x :: _) (?x :: _) => apply sublist_skip
         | |- sublist (_ :: _) (_ :: _) => apply sublist_cons
         end.

(** The checks of [_suggest_improvements] append in the order of
    [ALL_SUGGESTIONS] and at most six of them fire. *)
Lemma collected_suggestions_in_order (code : str) (diagram_type : value) :
  sublist (collected_suggestions code diagram_type) ALL_SUGGESTIONS
  /\ (length (collected_suggestions code diagram_type) <= 6)%nat.
Proof.
  unfold collected_suggestions, ALL_SUGGESTIONS. cbv zeta.
  repeat case_match; (split; [in_order | cbn [app length]; lia]).
Qed.

Lemma suggestions_are_distinct : NoDup (LOOKS_GOOD :: ALL_SUGGESTIONS).
Proof. apply (bool_decide_unpack _). vm_compute. exact I. Qed.

(** The suggestions reported for any text and diagram type: they come in
    the fixed order of the checks, none of them twice, at most six of
    them, and the fallback "Code looks good!" is reported only alone. *)
Theorem suggestions_keep_their_order (code : str) (diagram_type : value) :
  sublist (final_suggestions code diagram_type) (ALL_SUGGESTIONS ++ [LOOKS_GOOD])
  /\ NoDup (final_suggestions code diagram_type)
  /\ (length (final_suggestions code diagram_type) <= 6)%nat
  /\ (In LOOKS_GOOD (final_suggestions code diagram_type) ->
      final_suggestions code diagram_type = [LOOKS_GOOD]).
Proof.
  destruct (collected_suggestions_in_order code diagram_type) as [Hsub Hlen].
  pose proof suggestions_are_distinct as Hdistinct.
  apply NoDup_cons in Hdistinct as [Hfresh Hall].
  unfold final_suggestions.
  destruct (collected_suggestions code diagram_type) as [|s rest] eqn:E.
  - unfold ALL_SUGGESTIONS. cbn [app length]. repeat split.
    + in_order.
    + apply NoDup_singleton.
    + lia.
  - repeat split.
    + apply sublist_inserts_r. exact Hsub.
    + eapply sublist_NoDup; eassumption.
    + exact Hlen.
    + intros Hin. exfalso. apply Hfresh.
      eapply elem_of_sublist; [|exact Hsub]. apply list_elem_of_In. exact Hin.
Qed.

(** A line being read is closed at the latest by the end of the text. *)
Lemma splitlines_from_open (cur s : str) :
  cur <> [] -> (1 <= length (splitlines_from cur s))%nat.
Proof.
  revert cur. induction s as [|c s IH]; intros cur Hcur; simpl.
  - destruct cur; [contradiction | simpl; lia].
  - destruct (is_linebreak c).
    + destruct s as [|c' s']; [simpl; lia|].
      destruct ((c =? 13) && (c' =? 10)); simpl; lia.
    + apply IH. destruct cur; discriminate.
Qed.

(** Text added at the end never lowers the number of lines. *)
Lemma splitlines_from_app (n : nat) :
  forall (s more cur : str),
    (length s <= n)%nat ->
    (length (splitlines_from cur s) <= length (splitlines_from cur (s ++ more)))%nat.
Proof.
  induction n as [|n IH]; intros s more cur Hn.
  - destruct s; [|simpl in Hn; lia]. simpl.
    destruct cur as [|c cur]; [simpl; lia|].
    apply splitlines_from_open. discriminate.
  - destruct s as [|c s].
    + simpl. destruct cur as [|c cur]; [simpl; lia|].
      apply splitlines_from_open. discriminate.
    + simpl in Hn. cbn [app splitlines_from].
      destruct (is_linebreak c).
      * destruct s as [|c' s'].
        -- cbn [app]. destruct more as [|m more']; [simpl; lia|].
           destruct ((c =? 13) && (m =? 10)); simpl; lia.
        -- cbn [app]. simpl in Hn.
           destruct ((c =? 13) && (c' =? 10)); cbn [length]; apply le_n_S.
           ++ apply (IH s' more []). lia.
           ++ apply (IH (c' :: s') more []). simpl. lia.
      * apply IH. lia.
Qed.

Lemma splitlines_app (s more : str) :
  (length (splitlines s) <= length (splitlines (s ++ more)))%nat.
Proof. apply (splitlines_from_app (length s)). lia. Qed.

Lemma estimate_complexity_high (code : str) :
  _estimate_complexity code = lit "High"
  <-> (20 < length (splitlines code) \/ 1000 < length code)%nat.
Proof.
  unfold _estimate_complexity.
  destruct (Nat.ltb_spec 20 (length (splitlines code)));
    destruct (Nat.ltb_spec 1000 (length code));
    destruct (Nat.ltb_spec 10 (length (splitlines code)));
    destruct (Nat.ltb_spec 500 (length code));
    cbn [orb]; split; intros; try reflexivity; try lia; absurd_literal.
Qed.

Lemma estimate_complexity_low (code : str) :
  _estimate_complexity code = lit "Low"
  <-> (length (splitlines code) <= 10 /\ length code <= 500)%nat.
Proof.
  unfold _estimate_complexity.
  destruct (Nat.ltb_spec 20 (length (splitlines code)));
    destruct (Nat.ltb_spec 1000 (length code));
    destruct (Nat.ltb_spec 10 (length (splitlines code)));
    destruct (Nat.ltb_spec 500 (length code));
    cbn [orb]; split; intros; try reflexivity; try lia; absurd_literal.
Qed.

(** Adding text at the end never lowers the estimated complexity: High
    stays High, and a text that is not Low does not become Low. *)
Theorem complexity_never_drops (code more : str) :
  (_estimate_complexity code = lit "High" ->
   _estimate_complexity (code ++ more) = lit "High")
  /\ (_estimate_complexity code <> lit "Low" ->
      _estimate_complexity (code ++ more) <> lit "Low").
Proof.
  pose proof (splitlines_app code more) as Hlines.
  pose proof (length_app code more) as Hchars.
  split.
  - intros H. apply estimate_complexity_high in H.
    apply estimate_complexity_high. lia.
  - intros H Hlow. apply H. apply estimate_complexity_low in Hlow.
    apply estimate_complexity_low. lia.
Qed.

Lemma strip_blank (code : str) :
  Forall (fun c => is_space c = true) code -> strip code = [].
Proof.
  intros Hblank. unfold strip.
  rewrite <- (app_nil_r code), lstrip_with_all by assumption. reflexivity.
Qed.

(** A text of white space only is treated as empty code: whatever the
    diagram type, the first suggestion is the one for empty code, the
    missing-declaration suggestion is not made, and the fallback is not
    reached. *)
Theorem blank_code_is_empty_code (code : str) (diagram_type : value) :
  Forall (fun c => is_space c = true) code ->
  head (final_suggestions code diagram_type) = Some EMPTY_CODE
  /\ ~ In MISSING_DECLARATION (final_suggestions code diagram_type)
  /\ ~ In LOOKS_GOOD (final_suggestions code diagram_type).
Proof.
  intros Hblank.
  assert (Hcollected :
            head (collected_suggestions code diagram_type) = Some EMPTY_CODE
            /\ ~ In MISSING_DECLARATION (collected_suggestions code diagram_type)).
  { unfold collected_suggestions. rewrite (strip_blank code Hblank).
    cbv zeta. change (splitlines []) with (@nil str).
    repeat case_match; (split; [reflexivity|]);
      cbn [app In]; intros Hin;
      repeat (destruct Hin as [Hin|Hin];
              [vm_compute in Hin; discriminate Hin|]);
      exact Hin. }
  destruct Hcollected as [Hhead Hmissing].
  pose proof suggestions_are_distinct as Hdistinct.
  destruct (collected_suggestions_in_order code diagram_type) as [Hsub _].
  unfold final_suggestions.
  destruct (collected_suggestions code diagram_type) as [|s rest] eqn:E;
    [discriminate Hhead|].
  split; [exact Hhead|]. split; [exact Hmissing|].
  intros Hin. apply NoDup_cons in Hdistinct as [Hfresh _].
  apply Hfresh. eapply elem_of_sublist; [|exact Hsub].
  apply list_elem_of_In. exact Hin.
Qed.







(* ------------------------------------------------------------------ *)
(** ** Further properties: the helper tests of test_server.py *)

(** What [test_helper_methods] prints.  The five detection cases get the
    check mark.  Of the three complexity cases only the first does: for
    "graph TD" followed by 15 edge lines the test expects High and the
    code returns Medium (16 lines), and for 8 edge lines it expects
    Medium and the code returns Low (9 lines). *)
Theorem helper_test_marks :
  detection_marks = [lit "✅"; lit "✅"; lit "✅"; lit "✅"; lit "✅"]
  /\ complexity_marks = [lit "✅"; lit "❌"; lit "❌"]
  /\ map (fun case => _estimate_complexity (fst case)) complexity_cases
     = [lit "Low"; lit "Medium"; lit "Low"]
  /\ map (fun case => length (splitlines (fst case))) complexity_cases
     = [1; 16; 9]%nat.
Proof. repeat split; vm_compute; reflexivity. Qed.

End Server.

(* ------------------------------------------------------------------ *)
(** ** The properties at sample inputs *)

(** C7 at an argument mapping that names a theme and no code. *)
Lemma render_svg_without_code_witness :
  handle_call_tool ascii_runtime localhost (lit "render_mermaid_svg")
                   {[ lit "theme" := VStr (lit "dark") ]} unreachable []
  = (Returned [TextContent (lit "Error: 'code'")], []).
Proof.
  apply render_svg_without_code_makes_no_request. vm_compute. reflexivity.
Defined.


(** C8 at the eight bytes of the PNG signature. *)
Lemma png_payload_round_trip_witness :
  b64decode (bytes_decode (b64encode
     [Byte.x89; Byte.x50; Byte.x4e; Byte.x47; Byte.x0d; Byte.x0a; Byte.x1a; Byte.x0a]))
  = Some [Byte.x89; Byte.x50; Byte.x4e; Byte.x47; Byte.x0d; Byte.x0a; Byte.x1a; Byte.x0a].
Proof.
  destruct (png_payload_round_trip ascii_runtime localhost
              {[ lit "code" := VStr graph_td ]} (VStr graph_td)
              (answering (png_200 [Byte.x89; Byte.x50; Byte.x4e; Byte.x47;
                                   Byte.x0d; Byte.x0a; Byte.x1a; Byte.x0a])) []
              (png_200 [Byte.x89; Byte.x50; Byte.x4e; Byte.x47;
                        Byte.x0d; Byte.x0a; Byte.x1a; Byte.x0a]))
    as [_ Hdecode].
  - vm_compute. reflexivity.
  - intros req _. reflexivity.
  - reflexivity.
  - exact Hdecode.
Defined.

(** C2: at a service no connection reaches, [_render_svg] and
    [_render_png] do not return a failure report, they raise. *)
Lemma render_client_lets_transport_fault_through :
  fst (_render_svg localhost {[ lit "code" := VStr graph_td ]} unreachable [])
  = Raised (TransportError (lit "All connection attempts failed"))
  /\ fst (_render_png localhost {[ lit "code" := VStr graph_td ]} unreachable [])
     = Raised (TransportError (lit "All connection attempts failed"))
  /\ ~ (exists blocks,
          fst (_render_svg localhost {[ lit "code" := VStr graph_td ]} unreachable [])
          = Returned blocks)
  /\ ~ (exists blocks,
          fst (_render_png localhost {[ lit "code" := VStr graph_td ]} unreachable [])
          = Returned blocks).
Proof.
  assert (Hsvg : fst (_render_svg localhost {[ lit "code" := VStr graph_td ]}
                                  unreachable [])
                 = Raised (TransportError (lit "All connection attempts failed")))
    by (vm_compute; reflexivity).
  assert (Hpng : fst (_render_png localhost {[ lit "code" := VStr graph_td ]}
                                  unreachable [])
                 = Raised (TransportError (lit "All connection attempts failed")))
    by (vm_compute; reflexivity).
  repeat split; try assumption.
  - intros [blocks H]. rewrite Hsvg in H. discriminate H.
  - intros [blocks H]. rewrite Hpng in H. discriminate H.
Qed.

(** C2 as the code has it, at the same service. *)
Lemma transport_fault_surfaces_witness :
  handle_call_tool ascii_runtime localhost (lit "render_mermaid_svg")
                   {[ lit "code" := VStr graph_td ]} unreachable []
  = (Returned [TextContent (lit "Error: All connection attempts failed")],
     [svg_request localhost (VStr graph_td) (VStr (lit "modern")) 30]).
Proof.
  destruct (transport_fault_surfaces_at_dispatch ascii_runtime localhost
              {[ lit "code" := VStr graph_td ]} (VStr graph_td) unreachable []
              (lit "All connection attempts failed"))
    as (_ & _ & _ & Hsvg & _).
  - vm_compute. reflexivity.
  - intros req. reflexivity.
  - rewrite Hsvg. vm_compute. reflexivity.
Defined.

(** C3: two answers on which the message is not the one the specification
    words.  A JSON body without an [error] field gives "Unknown error", not
    the raw body; and without a JSON content type a JSON body with an
    [error] field gives the raw body, not the field. *)
Lemma failure_message_is_not_the_specified_one :
  (spec_failure_message detail_500 = httpx.text detail_500
   /\ fst (_render_svg localhost {[ lit "code" := VStr graph_td ]}
                       (answering detail_500) [])
      = Returned [TextContent (lit "❌ Failed to render SVG: Unknown error")]
   /\ fst (_render_svg localhost {[ lit "code" := VStr graph_td ]}
                       (answering detail_500) [])
      <> Returned [TextContent (lit "❌ Failed to render SVG: "
                                ++ spec_failure_message detail_500)])
  /\ (spec_failure_message untyped_500 = lit "parse error"
      /\ fst (_validate_mermaid ascii_runtime localhost
                {[ lit "code" := VStr graph_td ]} (answering untyped_500) [])
         = Returned [TextContent (invalid_report (httpx.text untyped_500))]
      /\ fst (_validate_mermaid ascii_runtime localhost
                {[ lit "code" := VStr graph_td ]} (answering untyped_500) [])
         <> Returned [TextContent (invalid_report (spec_failure_message untyped_500))]).
Proof.
  split; (split; [vm_compute; reflexivity|]);
    (split; [vm_compute; reflexivity|]);
    intros H; vm_compute in H; discriminate H.
Qed.

(** C3 as the code has it, at the answer HTTP 500 with a JSON content type
    and body {"error":"parse error"}. *)
Lemma failure_message_follows_content_type_witness :
  fst (_validate_mermaid ascii_runtime localhost {[ lit "code" := VStr graph_td ]}
                         (answering parse_error_500) [])
  = Returned [TextContent (invalid_report (lit "parse error"))].
Proof.
  destruct (failure_message_follows_content_type ascii_runtime localhost
              {[ lit "code" := VStr graph_td ]} (VStr graph_td)
              (answering parse_error_500) [] parse_error_500)
    as (_ & Htyped & _).
  - vm_compute. reflexivity.
  - intros req. reflexivity.
  - discriminate.
  - destruct (Htyped eq_refl _ eq_refl) as [Hfield _].
    specialize (Hfield (VStr (lit "parse error")) ltac:(vm_compute; reflexivity)).
    destruct Hfield as (_ & _ & Hval).
    rewrite Hval. reflexivity.
Defined.

(** C5 at twenty lines of one character each: Medium, not High. *)
Lemma estimate_complexity_twenty_lines :
  length (splitlines (concat (repeat (lit "A" ++ nl) 20))) = 20%nat
  /\ _estimate_complexity (concat (repeat (lit "A" ++ nl) 20)) = lit "Medium"
  /\ _estimate_complexity (concat (repeat (lit "A" ++ nl) 20)) <> lit "High".
Proof.
  split; [reflexivity|]. split; [reflexivity|].
  destruct (estimate_complexity_thresholds (concat (repeat (lit "A" ++ nl) 20)))
    as (_ & _ & _ & Hboundary).
  apply Hboundary; [reflexivity|].
  change (length (concat (repeat (lit "A" ++ nl) 20))) with 40%nat. lia.
Defined.

(* ------------------------------------------------------------------ *)
(** ** The further properties at sample inputs *)

(** Two calls that differ in an argument no tool reads, and in the theme
    that validate_mermaid does not read. *)
Lemma other_arguments_are_ignored_witness :
  handle_call_tool ascii_runtime localhost (lit "validate_mermaid")
    {[ lit "code" := VStr graph_td; lit "theme" := VStr (lit "dark");
       lit "verbose" := VBool true ]}
    unreachable []
  = handle_call_tool ascii_runtime localhost (lit "validate_mermaid")
      {[ lit "code" := VStr graph_td ]} unreachable [].
Proof.
  destruct (other_arguments_are_ignored ascii_runtime localhost
              {[ lit "code" := VStr graph_td; lit "theme" := VStr (lit "dark");
                 lit "verbose" := VBool true ]}
              {[ lit "code" := VStr graph_td ]} unreachable [])
    as (_ & _ & Hvalidate & _).
  - vm_compute. reflexivity.
  - exact Hvalidate.
Defined.

(** A call that gives only the code: the request carries the declared
    default theme. *)
Lemma defaults_are_the_declared_ones_witness :
  exists schema d,
    declared_schema (lit "render_mermaid_svg") (lit "theme") = Some schema
    /\ declared_default schema = Some d
    /\ snd (handle_call_tool ascii_runtime localhost (lit "render_mermaid_svg")
              {[ lit "code" := VStr graph_td ]} unreachable [])
       = [] ++ [svg_request localhost (VStr graph_td) d 30].
Proof.
  destruct (defaults_are_the_declared_ones ascii_runtime localhost
              {[ lit "code" := VStr graph_td ]} (VStr graph_td) unreachable [])
    as (_ & Hsvg & _).
  - vm_compute. reflexivity.
  - apply Hsvg. vm_compute. reflexivity.
Defined.


(** HTTP 502 with a JSON content type and a body that is a JSON array. *)
Lemma json_body_that_is_no_object_witness :
  fst (handle_call_tool ascii_runtime localhost (lit "render_mermaid_svg")
         {[ lit "code" := VStr graph_td ]}
         (answering {| httpx.status_code := 502;
                       httpx.headers := {[ lit "content-type" := lit "application/json" ]};
                       httpx.text := lit "[]";
                       httpx.content := [];
                       httpx.parsed := Returned JList |})
         [])
  = Returned [TextContent
                (lit "Error: " ++ str_of_exn (AttributeError (lit "list") (lit "get")))].
Proof.
  destruct (json_body_that_is_no_object ascii_runtime localhost
              {[ lit "code" := VStr graph_td ]} (VStr graph_td)
              (answering {| httpx.status_code := 502;
                            httpx.headers := {[ lit "content-type" := lit "application/json" ]};
                            httpx.text := lit "[]";
                            httpx.content := [];
                            httpx.parsed := Returned JList |})
              []
              {| httpx.status_code := 502;
                 httpx.headers := {[ lit "content-type" := lit "application/json" ]};
                 httpx.text := lit "[]";
                 httpx.content := [];
                 httpx.parsed := Returned JList |}
              (AttributeError (lit "list") (lit "get")))
    as (Hsvg & _).
  - vm_compute. reflexivity.
  - intros req. reflexivity.
  - discriminate.
  - vm_compute. reflexivity.
  - right. left. split; reflexivity.
  - exact Hsvg.
Defined.

(** The empty text as diagram_type. *)
Lemma falsy_diagram_type_is_none_witness :
  handle_call_tool ascii_runtime localhost (lit "suggest_mermaid_improvements")
    (<[lit "diagram_type" := VStr []]> {[ lit "code" := VStr graph_td ]})
    unreachable []
  = handle_call_tool ascii_runtime localhost (lit "suggest_mermaid_improvements")
      (delete (lit "diagram_type") {[ lit "code" := VStr graph_td ]})
      unreachable [].
Proof.
  apply (falsy_diagram_type_is_none ascii_runtime localhost). reflexivity.
Defined.

(** A service that answers HTTP 500 to render_mermaid_png. *)
Lemma check_mark_iff_200_witness :
  exists t,
    fst (handle_call_tool ascii_runtime localhost (lit "render_mermaid_png")
           {[ lit "code" := VStr graph_td ]} (answering parse_error_500) [])
    = Returned [TextContent t]
    /\ (startswith t (lit "✅") = true
        <-> httpx.status_code parse_error_500 = 200%Z)
    /\ (httpx.status_code parse_error_500 <> 200%Z ->
        startswith t (lit "❌") = true \/ startswith t (lit "Error: ") = true).
Proof.
  apply (check_mark_iff_200 ascii_runtime localhost
           {[ lit "code" := VStr graph_td ]} (VStr graph_td)
           (answering parse_error_500) [] parse_error_500
           (lit "render_mermaid_png")).
  - vm_compute. reflexivity.
  - intros req. reflexivity.
  - right. reflexivity.
Defined.

(** Two spaces, "SequenceDiagram" in mixed case, then the diagram. *)
Lemma declaration_decides_the_type_witness :
  _detect_diagram_type ascii_runtime
    (lit "  " ++ lit "SequenceDiagram" ++ (nl ++ lit "A->>B: hi"))
  = lit "sequence".
Proof.
  apply (declaration_decides_the_type ascii_runtime (lit "sequencediagram")).
  - left. reflexivity.
  - vm_compute. repeat constructor.
  - vm_compute. repeat constructor.
  - reflexivity.
Defined.

(** Twenty-one line feeds: white space only, and High complexity. *)
Lemma blank_code_is_empty_code_witness :
  head (final_suggestions (concat (repeat nl 21)) VNone) = Some EMPTY_CODE
  /\ _estimate_complexity (concat (repeat nl 21)) = lit "High".
Proof.
  split; [|reflexivity].
  destruct (blank_code_is_empty_code (concat (repeat nl 21)) VNone) as [Hhead _].
  - vm_compute. repeat constructor.
  - exact Hhead.
Defined.

